(** * Attendance session tracker

    A shallow embedding of [src/components/attendance/AttendanceTracker.tsx]
    together with the [attendance_sessions] table of migration
    [20260111034202]: the session records, the record store the component
    talks to, the derived values computed at render time (active session,
    daily total, elapsed-time string, per-session rows) and the
    [confirmPhoto] handler that performs check-in and check-out.

    Conventions.
    - A timestamp is the number of milliseconds since the epoch, as returned
      by [Date.now()] and by [new Date(iso).getTime()]; ISO strings written
      by [toISOString()] carry exactly that millisecond value.
    - JavaScript numbers that occur here are integers far below 2^53, so
      [Math.floor (a / b)] with a positive [b] is the floor division of [Z]
      and [a % b] is the truncating remainder [Z.rem].
    - Everything the component reads from outside (the system clock, the
      outcome of a request to the store, the identifiers generated by the
      store) is an oracle indexed by the number of reads made so far. *)

From Stdlib Require Import ZArith List String Ascii Bool Arith Lia.
From Stdlib Require Import Sorted Permutation DecimalString.
Import ListNotations.

Open Scope string_scope.
Open Scope list_scope.
Open Scope Z_scope.

(* ================================================================== *)
(** ** JavaScript primitives used by the component *)

Module JS.

(** [Math.floor(a / b)] on integers, for a positive divisor. *)
Definition floor_div (a b : Z) : Z := a / b.

(** The [%] operator: the result takes the sign of the dividend. *)
Definition rem (a b : Z) : Z := Z.rem a b.

(** [Number.prototype.toString()] on an integer. *)
Definition toString (n : Z) : string :=
  NilEmpty.string_of_int (Z.to_int n).

(** The first [n] characters of [rest ++ pad ++ pad ++ ...]. *)
Fixpoint cycle (n : nat) (pad rest : string) : string :=
  match n with
  | O => EmptyString
  | S k =>
      match rest with
      | String c r => String c (cycle k pad r)
      | EmptyString =>
          match pad with
          | String c r => String c (cycle k pad r)
          | EmptyString => EmptyString
          end
      end
  end.

(** [String.prototype.padStart(targetLength, padString)]. *)
Definition padStart (s : string) (targetLength : nat) (padString : string)
  : string :=
  String.append
    (cycle (targetLength - String.length s) padString EmptyString) s.

(** Truthiness of a [number | null]: [null] and [0] are falsy. *)
Definition truthy_number (x : option Z) : option Z :=
  match x with
  | Some d => if d =? 0 then None else Some d
  | None => None
  end.

(** Truthiness of a [string | null]: [null] and [""] are falsy. *)
Definition truthy_string (x : option string) : option string :=
  match x with
  | Some s => if String.eqb s "" then None else Some s
  | None => None
  end.

End JS.

(* ================================================================== *)
(** ** Data model *)

Definition uuid := string.
Definition instant := Z.
Definition day := string.

(** A row of [public.attendance_sessions], which is also what
    [select("*")] hands to the component as an [AttendanceSession].
    [created_at] is never read or written by the component and is left
    out.  A [TIMESTAMPTZ] column arrives as a non-empty ISO string, so
    [!s.check_out_time] holds exactly when the column is [NULL], and
    [s.check_in_time] (a [NOT NULL] column) is always truthy. *)
Record AttendanceSession : Type := mkSession {
  id : uuid;
  user_id : uuid;
  date : day;
  check_in_time : instant;
  check_out_time : option instant;
  check_in_photo : option string;
  check_out_photo : option string;
  duration_minutes : option Z
}.

Inductive CaptureType : Type := check_in | check_out.

Inductive Toast : Type :=
| toast_success (msg : string)
| toast_error (msg : string).

Inductive StoreError : Type :=
| request_failed
| unique_violation.

(* ================================================================== *)
(** ** The outside world *)

(** What the component cannot control: the [n]-th reading of the system
    clock, whether the [n]-th request to the store fails, and the [n]-th
    identifier produced by [gen_random_uuid()]. *)
Record Env : Type := mkEnv {
  clock : nat -> instant;
  faults : nat -> bool;
  uuids : nat -> uuid
}.

(** The table, the three read counters, and what has been shown to the
    user ([toast]) or logged ([console.error]). *)
Record World : Type := mkWorld {
  db : list AttendanceSession;
  ticks : nat;
  reqs : nat;
  minted : nat;
  toasts : list Toast;
  console : list StoreError
}.

(** A computation that reads and writes the world. *)
Definition M (A : Type) : Type := World -> A * World.

Definition ret {A : Type} (a : A) : M A := fun w => (a, w).

Definition bind {A B : Type} (m : M A) (k : A -> M B) : M B :=
  fun w => let (a, w') := m w in k a w'.

Declare Scope world_scope.
Delimit Scope world_scope with world.
Notation "x <- m ;; k" := (bind m (fun x => k))
  (at level 61, m at next level, right associativity) : world_scope.
Notation "m ;;; k" := (bind m (fun _ => k))
  (at level 61, right associativity) : world_scope.
Open Scope world_scope.

Definition with_db (w : World) (rows : list AttendanceSession) : World :=
  mkWorld rows (ticks w) (reqs w) (minted w) (toasts w) (console w).

Section Effects.

Variable env : Env.

(** [Date.now()], and equally [new Date()]: one reading of the clock. *)
Definition Date_now : M instant :=
  fun w => (clock env (ticks w),
            mkWorld (db w) (S (ticks w)) (reqs w) (minted w)
                    (toasts w) (console w)).

(** One round trip to the store; the answer tells whether it failed. *)
Definition round_trip : M bool :=
  fun w => (faults env (reqs w),
            mkWorld (db w) (ticks w) (S (reqs w)) (minted w)
                    (toasts w) (console w)).

Definition gen_random_uuid : M uuid :=
  fun w => (uuids env (minted w),
            mkWorld (db w) (ticks w) (reqs w) (S (minted w))
                    (toasts w) (console w)).

Definition toast (t : Toast) : M unit :=
  fun w => (tt, mkWorld (db w) (ticks w) (reqs w) (minted w)
                        (toasts w ++ [t]) (console w)).

Definition console_error (e : StoreError) : M unit :=
  fun w => (tt, mkWorld (db w) (ticks w) (reqs w) (minted w)
                        (toasts w) (console w ++ [e])).

(* ---------------------------------------------------------------- *)
(** *** The record store

    The requests the component issues, with the semantics of the table
    definition: [id] is a primary key filled by [gen_random_uuid()],
    the columns not mentioned by an insert are [NULL], and the policy
    "Users can manage own attendance sessions" restricts an update to
    the rows owned by the authenticated user.  A request that fails
    leaves the table as it was. *)

Definition has_id (x : uuid) (r : AttendanceSession) : bool :=
  String.eqb (id r) x.

(** [.insert({ user_id, date, check_in_time, check_in_photo })] *)
Definition insert (u : uuid) (d : day) (cin : instant) (photo : string)
  : M (option StoreError) :=
  failed <- round_trip ;;
  if failed then ret (Some request_failed)
  else
    fresh <- gen_random_uuid ;;
    fun w =>
      if existsb (has_id fresh) (db w)
      then (Some unique_violation, w)
      else (None,
            with_db w
              (db w ++ [mkSession fresh u d cin None (Some photo) None None])).

(** The row after
    [{ check_out_time, check_out_photo, duration_minutes }] are set. *)
Definition set_check_out (cout : instant) (photo : string) (minutes : Z)
    (r : AttendanceSession) : AttendanceSession :=
  mkSession (id r) (user_id r) (date r) (check_in_time r)
            (Some cout) (check_in_photo r) (Some photo) (Some minutes).

(** [.update({ ... }).eq("id", target)], issued by user [u]. *)
Definition update (u : uuid) (target : uuid)
    (cout : instant) (photo : string) (minutes : Z)
  : M (option StoreError) :=
  failed <- round_trip ;;
  if failed then ret (Some request_failed)
  else
    fun w =>
      (None,
       with_db w
         (map (fun r =>
                 if has_id target r && String.eqb (user_id r) u
                 then set_check_out cout photo minutes r
                 else r)
              (db w))).

(** [.order("check_in_time", { ascending: true })]: rows with equal
    keys keep their table order. *)
Fixpoint place (x : AttendanceSession) (l : list AttendanceSession)
  : list AttendanceSession :=
  match l with
  | [] => [x]
  | y :: l' =>
      if check_in_time x <=? check_in_time y
      then x :: y :: l'
      else y :: place x l'
  end.

Definition order_by_check_in_time (l : list AttendanceSession)
  : list AttendanceSession :=
  fold_right place [] l.

(** [.select("*").eq("user_id", u).eq("date", d).order(...)] *)
Definition select_sessions (rows : list AttendanceSession)
    (u : uuid) (d : day) : list AttendanceSession :=
  order_by_check_in_time
    (filter (fun r => String.eqb (user_id r) u && String.eqb (date r) d)
            rows).

End Effects.

(* ================================================================== *)
(** ** The component *)

(** The pieces of component state the timing logic depends on: the
    authenticated user's id ([user?.id]), the calendar day computed at
    render time ([today]), the cached result of the sessions query, and
    the [useState] cells.  The camera stream and the DOM refs are not
    modelled: a captured frame arrives as the argument of the capture
    event, a refused camera as an event of its own. *)
Record State : Type := mkState {
  user : option uuid;
  today : day;
  sessions : list AttendanceSession;
  showCamera : bool;
  captureType : CaptureType;
  capturedImage : option string;
  elapsedTime : string
}.

(** The state at mount: the [useState] defaults and the query default
    [data: sessions = []]. *)
Definition mount (u : option uuid) (d : day) : State :=
  mkState u d [] false check_in None "00:00:00".

Definition set_sessions (st : State) (l : list AttendanceSession) : State :=
  mkState (user st) (today st) l (showCamera st) (captureType st)
          (capturedImage st) (elapsedTime st).

Definition setShowCamera (st : State) (b : bool) : State :=
  mkState (user st) (today st) (sessions st) b (captureType st)
          (capturedImage st) (elapsedTime st).

Definition setCaptureType (st : State) (t : CaptureType) : State :=
  mkState (user st) (today st) (sessions st) (showCamera st) t
          (capturedImage st) (elapsedTime st).

Definition setCapturedImage (st : State) (i : option string) : State :=
  mkState (user st) (today st) (sessions st) (showCamera st) (captureType st)
          i (elapsedTime st).

Definition setElapsedTime (st : State) (s : string) : State :=
  mkState (user st) (today st) (sessions st) (showCamera st) (captureType st)
          (capturedImage st) s.

(** [!s.check_out_time] *)
Definition is_open (s : AttendanceSession) : bool :=
  match check_out_time s with
  | None => true
  | Some _ => false
  end.

(** [sessions.find(s => !s.check_out_time)] *)
Definition activeSession (l : list AttendanceSession)
  : option AttendanceSession :=
  find is_open l.

(** [!!activeSession] *)
Definition isCheckedIn (l : list AttendanceSession) : bool :=
  match activeSession l with
  | Some _ => true
  | None => false
  end.

(** [Array.prototype.reduce] with a callback that reads the world. *)
Fixpoint reduce {A B : Type} (f : A -> B -> M A) (l : list B) (acc : A)
  : M A :=
  match l with
  | [] => ret acc
  | x :: l' => acc' <- f acc x ;; reduce f l' acc'
  end.

(** [Array.prototype.map] with the [(element, index)] callback. *)
Fixpoint map_indexed {A B : Type} (f : A -> nat -> B) (l : list A)
    (index : nat) : list B :=
  match l with
  | [] => []
  | x :: l' => f x index :: map_indexed f l' (S index)
  end.

Definition totalHours (totalMinutes : Z) : Z := JS.floor_div totalMinutes 60.

Definition remainingMinutes (totalMinutes : Z) : Z := JS.rem totalMinutes 60.

(** [{totalHours}h {remainingMinutes}m] *)
Definition todays_total (totalMinutes : Z) : string :=
  String.append (JS.toString (totalHours totalMinutes))
    (String.append "h "
       (String.append (JS.toString (remainingMinutes totalMinutes)) "m")).

(** The string built by the interval callback from the two instants. *)
Definition elapsed (start now : instant) : string :=
  let diff := now - start in
  let hours := JS.floor_div diff (1000 * 60 * 60) in
  let minutes := JS.floor_div (JS.rem diff (1000 * 60 * 60)) (1000 * 60) in
  let seconds := JS.floor_div (JS.rem diff (1000 * 60)) 1000 in
  String.append (JS.padStart (JS.toString hours) 2 "0")
    (String.append ":"
       (String.append (JS.padStart (JS.toString minutes) 2 "0")
          (String.append ":" (JS.padStart (JS.toString seconds) 2 "0")))).

(** The right-hand cell of a session row: the stored duration, or the
    "In Progress" badge. *)
Definition duration_cell (session : AttendanceSession) : string :=
  match JS.truthy_number (duration_minutes session) with
  | Some d =>
      String.append (JS.toString (JS.floor_div d 60))
        (String.append "h " (String.append (JS.toString (JS.rem d 60)) "m"))
  | None => "In Progress"
  end.

(** One entry of "Today's Sessions": whether the check mark (closed) or
    the play icon (open) is drawn, the title, and the right-hand cell.
    The two clock times of the row are formatted in the viewer's time
    zone and are not modelled. *)
Record SessionRow : Type := mkRow {
  row_key : uuid;
  row_checked : bool;
  row_title : string;
  row_duration : string
}.

Definition session_row (session : AttendanceSession) (index : nat)
  : SessionRow :=
  mkRow (id session)
        (negb (is_open session))
        (String.append "Session " (JS.toString (Z.of_nat index + 1)))
        (duration_cell session).

(** [sessions.map((session, index) => ...)] *)
Definition session_rows (l : list AttendanceSession) : list SessionRow :=
  map_indexed session_row l 0.

(** [isCheckedIn ? elapsedTime : "00:00:00"] *)
Definition current_session (st : State) : string :=
  if isCheckedIn (sessions st) then elapsedTime st else "00:00:00".

Inductive Event : Type :=
| click_attendance
| click_capture (frame : option string)
| click_retake
| click_cancel
| click_confirm
| query_settled
| interval_fired
| camera_refused.

Section Component.

Variable env : Env.

(** The callback of [sessions.reduce(..., 0)]. *)
Definition add_minutes (acc : Z) (session : AttendanceSession) : M Z :=
  match JS.truthy_number (duration_minutes session) with
  | Some d => ret (acc + d)
  | None =>
      if is_open session then
        let start := check_in_time session in
        now <- Date_now env ;;
        ret (acc + JS.floor_div (now - start) (1000 * 60))
      else ret acc
  end.

Definition totalMinutes (l : list AttendanceSession) : M Z :=
  reduce add_minutes l 0.

(** The [queryFn] of the "attendance-sessions" query. *)
Definition queryFn (st : State) : M (list AttendanceSession) :=
  match JS.truthy_string (user st) with
  | None => ret []
  | Some u =>
      failed <- round_trip env ;;
      if failed then ret []
      else fun w => (select_sessions (db w) u (today st), w)
  end.

(** The body of the [setInterval] callback; the interval only exists
    while there is an active session. *)
Definition interval_callback (st : State) : M State :=
  match activeSession (sessions st) with
  | None => ret st
  | Some a =>
      let start := check_in_time a in
      now <- Date_now env ;;
      ret (setElapsedTime st (elapsed start now))
  end.

(** The synchronous part of the elapsed-time effect, run when
    [activeSession] changes. *)
Definition elapsed_effect (st : State) : State :=
  if isCheckedIn (sessions st) then st else setElapsedTime st "00:00:00".

Definition openCamera (st : State) (type : CaptureType) : State :=
  setShowCamera (setCapturedImage (setCaptureType st type) None) true.

(** What follows a confirmed write: the dialog closes, the photo is
    dropped; [refetch()] is not awaited, its result arrives later as a
    [query_settled] event. *)
Definition after_write (st : State) : State :=
  setCapturedImage (setShowCamera st false) None.

Definition save_failed (e : StoreError) (st : State) : M State :=
  toast (toast_error "Failed to save attendance") ;;;
  console_error e ;;;
  ret st.

Definition confirmPhoto (st : State) : M State :=
  match JS.truthy_string (user st), JS.truthy_string (capturedImage st) with
  | Some uid, Some image =>
      match captureType st with
      | check_in =>
          now <- Date_now env ;;
          error <- insert env uid (today st) now image ;;
          match error with
          | Some e => save_failed e st
          | None =>
              toast (toast_success "Checked in successfully!") ;;;
              ret (after_write st)
          end
      | check_out =>
          match activeSession (sessions st) with
          | None => ret st
          | Some a =>
              let checkInTime := check_in_time a in
              now <- Date_now env ;;
              let durationMinutes :=
                JS.floor_div (now - checkInTime) (1000 * 60) in
              out <- Date_now env ;;
              error <- update env uid (id a) out image durationMinutes ;;
              match error with
              | Some e => save_failed e st
              | None =>
                  toast (toast_success "Checked out successfully!") ;;;
                  ret (after_write st)
              end
          end
      end
  | _, _ => ret st
  end.

(** [capturePhoto]: the frame drawn on the canvas becomes the captured
    image; without a video element, a canvas or a 2d context nothing
    happens. *)
Definition capturePhoto (st : State) (frame : option string) : State :=
  match frame with
  | Some imageData => setCapturedImage st (Some imageData)
  | None => st
  end.

Definition retakePhoto (st : State) : State := setCapturedImage st None.

(** The [catch] branch of [startCamera]: [getUserMedia], called by the
    effect that follows the opening of the dialog, was refused.  The
    refusal may arrive after the dialog has been closed again. *)
Definition startCamera_refused (st : State) : M State :=
  toast (toast_error
           "Failed to access camera. Please allow camera permissions.") ;;;
  ret (setShowCamera st false).

(** One event of the component's life.  A handler runs to its end
    before the next event is taken: [confirmPhoto] is one step from the
    request to the reaction to its answer, so a second click on
    "Confirm" while a write is still in flight is not among the runs
    described here. *)
Definition step (ev : Event) (st : State) : M State :=
  match ev with
  | click_attendance =>
      ret (openCamera st
             (if isCheckedIn (sessions st) then check_out else check_in))
  | click_capture frame => ret (capturePhoto st frame)
  | click_retake => ret (retakePhoto st)
  | click_cancel => ret (setShowCamera st false)
  | click_confirm => confirmPhoto st
  | query_settled =>
      data <- queryFn st ;;
      ret (elapsed_effect (set_sessions st data))
  | interval_fired => interval_callback st
  | camera_refused => startCamera_refused st
  end.

Fixpoint run (evs : list Event) (st : State) : M State :=
  match evs with
  | [] => ret st
  | ev :: evs' => st' <- step ev st ;; run evs' st'
  end.

End Component.

(* ================================================================== *)
(** ** The attendance chart of the analytics dashboard

    [AnalyticsDashboard] in [src/components/admin/TaskManagement.tsx]
    reads [date, duration_minutes, user_id] of [attendance_sessions]
    and, for each day of the chosen range, keeps the rows of that day,
    adds up their durations and counts the distinct users.  The sum is
    then divided by 60 and rounded to one decimal with [toFixed], a
    floating-point step that is not modelled; the integer sum and the
    count are. *)

(** [attendanceData.filter(a => a.date === dateStr)] *)
Definition dayData (attendanceData : list AttendanceSession) (dateStr : day)
  : list AttendanceSession :=
  filter (fun a => String.eqb (date a) dateStr) attendanceData.

(** [a.duration_minutes || 0] *)
Definition minutes_or_zero (a : AttendanceSession) : Z :=
  match JS.truthy_number (duration_minutes a) with
  | Some d => d
  | None => 0
  end.

(** [dayData.reduce((acc, a) => acc + (a.duration_minutes || 0), 0)] *)
Definition dayMinutes (l : list AttendanceSession) : Z :=
  fold_left (fun acc a => acc + minutes_or_zero a) l 0.

(** [new Set(dayData.map(a => a.user_id)).size] *)
Definition uniqueUsers (l : list AttendanceSession) : nat :=
  List.length (nodup string_dec (map user_id l)).

(* ================================================================== *)
(** ** Vocabulary of the properties *)

(** A field of the elapsed-time string. *)
Definition pad2 (n : Z) : string := JS.padStart (JS.toString n) 2 "0".

(** [hh:mm:ss] out of three numbers. *)
Definition clock_face (h m s : Z) : string :=
  String.append (pad2 h)
    (String.append ":" (String.append (pad2 m) (String.append ":" (pad2 s)))).

(** [Hh Mm] out of two numbers. *)
Definition hours_minutes (h m : Z) : string :=
  String.append (JS.toString h)
    (String.append "h " (String.append (JS.toString m) "m")).

(** The stored duration of a session, an absent one counting for 0. *)
Definition stored_minutes (s : AttendanceSession) : Z :=
  match duration_minutes s with
  | Some d => d
  | None => 0
  end.

(** Sum of [duration_minutes] over the closed sessions of a list. *)
Definition closed_minutes (l : list AttendanceSession) : Z :=
  fold_right Z.add 0
    (map stored_minutes (filter (fun s => negb (is_open s)) l)).

(** Live elapsed minutes of the open sessions of a list, the first open
    session being measured against clock reading [t], the next one
    against reading [t + 1], and so on. *)
Fixpoint live_minutes (clk : nat -> instant) (t : nat)
    (l : list AttendanceSession) : Z :=
  match l with
  | [] => 0
  | s :: l' =>
      if is_open s
      then (clk t - check_in_time s) / 60000 + live_minutes clk (S t) l'
      else live_minutes clk t l'
  end.

(** The data-model rule "[duration_minutes] is absent while open". *)
Definition no_duration_while_open (l : list AttendanceSession) : Prop :=
  forall s, In s l -> is_open s = true -> duration_minutes s = None.

(** The two closed sessions 09:00-09:30 and 10:00-10:45 of one day. *)
Definition two_closed_sessions : list AttendanceSession :=
  [ mkSession "s1" "u1" "2026-01-11" 32400000 (Some 34200000)
              (Some "in1") (Some "out1") (Some 30);
    mkSession "s2" "u1" "2026-01-11" 36000000 (Some 38700000)
              (Some "in2") (Some "out2") (Some 45) ].

(** A world with nothing in it, and a well-behaved environment: the
    clock advances by [period] milliseconds per reading, no request
    fails, identifiers are the decimal numerals. *)
Definition empty_world : World := mkWorld [] 0 0 0 [] [].

Definition steady (period : Z) : Env :=
  mkEnv (fun n => period * Z.of_nat n)
        (fun _ => false)
        (fun n => JS.toString (Z.of_nat n)).

(** Check in, let the query settle, check out, let the query settle. *)
Definition one_session_day : list Event :=
  [ click_attendance; click_capture (Some "in"); click_confirm;
    query_settled;
    click_attendance; click_capture (Some "out"); click_confirm;
    query_settled ].

(** The world after [n] further readings of the clock. *)
Definition later (w : World) (n : nat) : World :=
  mkWorld (db w) (ticks w + n) (reqs w) (minted w) (toasts w) (console w).

(** An open session that started at [T], and a component looking at it. *)
Definition open_at (T : instant) : AttendanceSession :=
  mkSession "s1" "u1" "2026-01-11" T None (Some "in") None None.

Definition watching (l : list AttendanceSession) : State :=
  set_sessions (mount (Some "u1") "2026-01-11") l.

(** What the update issued by user [u] for [target] does to one row. *)
Definition closing (u target : uuid) (cout : instant) (photo : string)
    (minutes : Z) (r : AttendanceSession) : AttendanceSession :=
  if has_id target r && String.eqb (user_id r) u
  then set_check_out cout photo minutes r
  else r.

(** The row a check-in of user [u] adds to the table. *)
Definition opened (fresh u : uuid) (d : day) (cin : instant) (photo : string)
  : AttendanceSession :=
  mkSession fresh u d cin None (Some photo) None None.

(** An environment whose clock returns the listed readings, then 0. *)
Definition scripted (readings : list instant) : Env :=
  mkEnv (fun n => nth n readings 0)
        (fun _ => false)
        (fun n => JS.toString (Z.of_nat n)).

(** Whether [confirmPhoto] gets as far as issuing a write. *)
Definition issues_write (st : State) : bool :=
  match JS.truthy_string (user st), JS.truthy_string (capturedImage st) with
  | Some _, Some _ =>
      match captureType st with
      | check_in => true
      | check_out => isCheckedIn (sessions st)
      end
  | _, _ => false
  end.

(** Whether the write that [confirmPhoto] would issue comes back with an
    error: the request fails, or the generated key is already taken. *)
Definition write_fails (env : Env) (st : State) (w : World) : bool :=
  match captureType st with
  | check_in =>
      faults env (reqs w) || existsb (has_id (uuids env (minted w))) (db w)
  | check_out => faults env (reqs w)
  end.

(** The world after a write was attempted: [n] clock readings, one
    request, [k] generated keys, a new table, a toast and possibly a
    console line. *)
Definition written (w : World) (n k : nat) (rows : list AttendanceSession)
    (t : Toast) (log : list StoreError) : World :=
  mkWorld rows (ticks w + n) (S (reqs w)) (minted w + k)
          (toasts w ++ [t]) (console w ++ log).

(** An environment whose first request to the store fails. *)
Definition flaky : Env :=
  mkEnv (fun n => 1000 * Z.of_nat n)
        (fun n => Nat.eqb n 0)
        (fun n => JS.toString (Z.of_nat n)).

(** The component with the dialog open and a photo taken, about to
    confirm an operation of the given type. *)
Definition armed (l : list AttendanceSession) (t : CaptureType) (photo : string)
  : State :=
  mkState (Some "u1") "2026-01-11" l true t (Some photo) "00:00:00".

(** Ascending [check_in_time] order. *)
Definition not_after (a b : AttendanceSession) : Prop :=
  check_in_time a <= check_in_time b.

Definition ascending (l : list AttendanceSession) : Prop :=
  StronglySorted not_after l.

(** The titles "Session 1", ..., "Session n". *)
Definition session_titles (n : nat) : list string :=
  map (fun i => String.append "Session " (JS.toString (Z.of_nat i + 1)))
      (seq 0 n).

(** The primary-key constraint on [id]. *)
Definition primary_key (rows : list AttendanceSession) : Prop :=
  NoDup (map id rows).

(** Two open sessions of the same user and day in the table, the one
    that started later stored first. *)
Definition late_session : AttendanceSession :=
  mkSession "s2" "u1" "2026-01-11" 7200000 None (Some "in2") None None.

Definition two_open : list AttendanceSession := [late_session; open_at 0].

(** Clicking the attendance button, taking a photo and confirming. *)
Definition button_flow (photo : string) : list Event :=
  [ click_attendance; click_capture (Some photo); click_confirm ].

(** Every clock reading is strictly later than the reading taken two
    readings before it; two readings in a row may coincide. *)
Definition advances_every_other (clk : nat -> instant) : Prop :=
  forall i, clk i < clk (i + 2)%nat.

(** Every check-in instant in the table lies strictly before the
    reading after the next one, which is the reading a check-out
    confirmed now would store as [check_out_time]. *)
Definition recorded_before_check_out (env : Env) (w : World) : Prop :=
  forall r, In r (db w) -> check_in_time r < clock env (S (ticks w)).

(** A clock on which the two readings of one check-out coincide:
    readings 1 and 2 are equal, readings 3 and 4 are equal, and so
    on, one [period] apart. *)
Definition paired (period : Z) : Env :=
  mkEnv (fun n => period * ((Z.of_nat n + 1) / 2))
        (fun _ => false)
        (fun n => JS.toString (Z.of_nat n)).

(** Every closed session ends strictly after it started. *)
Definition out_after_in (rows : list AttendanceSession) : Prop :=
  forall r out, In r rows -> check_out_time r = Some out ->
                check_in_time r < out.

(** What every step maintains under such a clock. *)
Definition well_timed (env : Env) (w : World) : Prop :=
  recorded_before_check_out env w /\ out_after_in (db w).

(** What holds of the table and of the component's session list in
    every state the component can reach from a table that respects its
    schema. *)
Definition consistent (st : State) (w : World) : Prop :=
  primary_key (db w) /\
  no_duration_while_open (db w) /\
  no_duration_while_open (sessions st).


(** [r'] is the row [r] at a later time: same key, owner, day and
    check-in data, and still closed if [r] was closed. *)
Definition later_version (r r' : AttendanceSession) : Prop :=
  id r' = id r /\ user_id r' = user_id r /\ date r' = date r /\
  check_in_time r' = check_in_time r /\
  check_in_photo r' = check_in_photo r /\
  (is_open r = false -> is_open r' = false).

(** The rows of a table that do not belong to user [u], and those that
    do not belong to day [d]. *)
Definition of_others (u : uuid) (rows : list AttendanceSession)
  : list AttendanceSession :=
  filter (fun r => negb (String.eqb (user_id r) u)) rows.

Definition of_other_days (d : day) (rows : list AttendanceSession)
  : list AttendanceSession :=
  filter (fun r => negb (String.eqb (date r) d)) rows.

(** A session of user "u1" left open on the previous day, and one open
    session of another user on the day itself. *)
Definition yesterday_open : AttendanceSession :=
  mkSession "y1" "u1" "2026-01-10" 100 None (Some "in") None None.

Definition colleague_open : AttendanceSession :=
  mkSession "c1" "u2" "2026-01-11" 200 None (Some "in") None None.

(** The session list only mentions rows that, in the table, belong to
    the day the component is showing. *)
Definition list_of_today (st : State) (w : World) : Prop :=
  primary_key (db w) /\
  forall s r, In s (sessions st) -> In r (db w) -> id r = id s ->
              date r = today st.

(** The session list has no two entries with the same [id] and holds
    only sessions of the signed-in user and of the day shown. *)
Definition own_list (st : State) : Prop :=
  NoDup (map id (sessions st)) /\
  forall s, In s (sessions st) ->
            JS.truthy_string (user st) = Some (user_id s) /\
            date s = today st.

(** Successive clock readings never decrease. *)
Definition never_goes_back (clk : nat -> instant) : Prop :=
  forall i j, (i <= j)%nat -> clk i <= clk j.

(** The rows of a list that belong to user [u]. *)
Definition of_user (u : uuid) (rows : list AttendanceSession)
  : list AttendanceSession :=
  filter (fun r => String.eqb (user_id r) u) rows.

(** Sum of a list of integers. *)
Definition total_of (l : list Z) : Z := fold_right Z.add 0 l.

(** The toast shown when the camera is refused, and the toasts a run
    owes to such refusals. *)
Definition camera_toast : Toast :=
  toast_error "Failed to access camera. Please allow camera permissions.".

Definition is_refusal (ev : Event) : bool :=
  match ev with
  | camera_refused => true
  | _ => false
  end.

Definition refusals (evs : list Event) : list Toast :=
  map (fun _ => camera_toast) (filter is_refusal evs).



(* ================================================================== *)
(** ** Properties *)

(** *** Elapsed-time display *)

Lemma pad2_length (n : Z) :
  0 <= n < 100 -> String.length (pad2 n) = 2%nat.
Proof.
  intros Hn.
  assert (Hall : forallb
                   (fun k => Nat.eqb (String.length (pad2 (Z.of_nat k))) 2)
                   (seq 0 100) = true) by (vm_compute; reflexivity).
  rewrite forallb_forall in Hall.
  specialize (Hall (Z.to_nat n)).
  rewrite Z2Nat.id in Hall by lia.
  apply Nat.eqb_eq, Hall, in_seq. lia.
Qed.

Lemma hms_decomposition (diff : Z) :
  0 <= diff ->
  let hours := JS.floor_div diff (1000 * 60 * 60) in
  let minutes := JS.floor_div (JS.rem diff (1000 * 60 * 60)) (1000 * 60) in
  let seconds := JS.floor_div (JS.rem diff (1000 * 60)) 1000 in
  0 <= hours /\ 0 <= minutes < 60 /\ 0 <= seconds < 60 /\
  hours * 3600 + minutes * 60 + seconds = diff / 1000.
Proof.
  intros Hd. unfold JS.floor_div, JS.rem. cbn zeta.
  rewrite !Z.rem_mod_nonneg by lia.
  change (1000 * 60 * 60) with 3600000. change (1000 * 60) with 60000.
  Z.div_mod_to_equations. lia.
Qed.

Lemma elapsed_clock_face (T now : instant) :
  elapsed T now =
  clock_face ((now - T) / 3600000)
             (Z.rem (now - T) 3600000 / 60000)
             (Z.rem (now - T) 60000 / 1000).
Proof. reflexivity. Qed.

Lemma elapsed_at_check_in (T : instant) : elapsed T T = "00:00:00".
Proof. unfold elapsed. rewrite Z.sub_diag. reflexivity. Qed.

Lemma elapsed_after_a_minute (T : instant) :
  elapsed T (T + 60000) = "00:01:00".
Proof.
  unfold elapsed. replace (T + 60000 - T) with 60000 by lia. reflexivity.
Qed.

Lemma interval_callback_active (env : Env) (st : State) (w : World)
    (a : AttendanceSession) :
  activeSession (sessions st) = Some a ->
  interval_callback env st w =
  (setElapsedTime st (elapsed (check_in_time a) (clock env (ticks w))),
   mkWorld (db w) (S (ticks w)) (reqs w) (minted w) (toasts w) (console w)).
Proof.
  intros Ha. unfold interval_callback. rewrite Ha. reflexivity.
Qed.

(** C6. While a session with check-in instant [T] is open, the string
    put on display by the one-second interval callback is
    [hh:mm:ss] for [diff = now - T], with
    [hh = floor (diff / 3,600,000)],
    [mm = floor ((diff % 3,600,000) / 60,000)] and
    [ss = floor ((diff % 60,000) / 1,000)], each field padded with
    zeros to two characters.  It reads 00:00:00 when [now = T] and
    00:01:00 when [now = T + 60 s].  When [now] is not before [T] the
    three fields are the hours, minutes (0..59) and seconds (0..59) of
    the whole seconds elapsed, the last two being exactly two characters
    wide, and so is the first one below 100 hours. *)
Theorem C6_elapsed_display (env : Env) (st : State) (w : World)
    (a : AttendanceSession) :
  activeSession (sessions st) = Some a ->
  let T := check_in_time a in
  let now := clock env (ticks w) in
  let diff := now - T in
  let hh := diff / 3600000 in
  let mm := Z.rem diff 3600000 / 60000 in
  let ss := Z.rem diff 60000 / 1000 in
  let shown := current_session (fst (interval_callback env st w)) in
  shown = clock_face hh mm ss /\
  (now = T -> shown = "00:00:00") /\
  (now = T + 60000 -> shown = "00:01:00") /\
  (0 <= diff ->
   0 <= hh /\ 0 <= mm < 60 /\ 0 <= ss < 60 /\
   hh * 3600 + mm * 60 + ss = diff / 1000 /\
   String.length (pad2 mm) = 2%nat /\ String.length (pad2 ss) = 2%nat /\
   (hh < 100 -> String.length (pad2 hh) = 2%nat)).
Proof.
  intros Ha T now diff hh mm ss shown.
  assert (Hshown : shown = elapsed T now).
  { unfold shown. rewrite (interval_callback_active env st w a Ha).
    unfold current_session, isCheckedIn. cbn [fst setElapsedTime sessions].
    rewrite Ha. reflexivity. }
  split; [exact Hshown|].
  split; [intros E; rewrite Hshown, E; apply elapsed_at_check_in|].
  split; [intros E; rewrite Hshown, E; apply elapsed_after_a_minute|].
  intros Hd.
  destruct (hms_decomposition diff Hd) as (Hh & Hm & Hs & Hsum).
  change (JS.floor_div diff (1000 * 60 * 60)) with hh in Hh, Hsum.
  change (JS.floor_div (JS.rem diff (1000 * 60 * 60)) (1000 * 60))
    with mm in Hm, Hsum.
  change (JS.floor_div (JS.rem diff (1000 * 60)) 1000) with ss in Hs, Hsum.
  repeat split; try lia.
  - apply pad2_length; lia.
  - apply pad2_length; lia.
  - intros Hlt. apply pad2_length; lia.
Qed.

Lemma C6_elapsed_display_witness :
  current_session
    (fst (interval_callback (steady 61000) (watching [open_at 0])
            (later empty_world 1)))
  = "00:01:01".
Proof.
  exact (proj1 (C6_elapsed_display (steady 61000) (watching [open_at 0])
                  (later empty_world 1) (open_at 0) eq_refl)).
Defined.

(** *** Rows of the session list *)

Lemma duration_cell_nonzero (s : AttendanceSession) (d : Z) :
  duration_minutes s = Some d -> d <> 0 ->
  duration_cell s = hours_minutes (d / 60) (Z.rem d 60).
Proof.
  intros Hd Hnz. unfold duration_cell. rewrite Hd. cbn [JS.truthy_number].
  destruct (Z.eqb_spec d 0); [contradiction|reflexivity].
Qed.

Lemma duration_cell_zero (s : AttendanceSession) :
  duration_minutes s = Some 0 -> duration_cell s = "In Progress".
Proof. intros Hd. unfold duration_cell. rewrite Hd. reflexivity. Qed.

(** C7, at the input where the code departs from it.  A user checks in
    at instant 0 and checks out 30 seconds later: the session is closed
    with [duration_minutes = 0], its row carries the check mark of a
    closed session, and yet its duration cell reads "In Progress"
    instead of "0h 0m". *)
Theorem C7_zero_minutes_shown_in_progress :
  let (st, w) := run (steady 15000) one_session_day
                     (mount (Some "u1") "2026-01-11") empty_world in
  db w = [ mkSession "0" "u1" "2026-01-11" 0 (Some 30000)
                     (Some "in") (Some "out") (Some 0) ] /\
  sessions st = db w /\
  session_rows (sessions st) = [ mkRow "0" true "Session 1" "In Progress" ] /\
  hours_minutes (0 / 60) (Z.rem 0 60) = "0h 0m".
Proof. vm_compute. repeat split. Qed.

(** *** Daily total *)

Lemma reduce_add_minutes (env : Env) (l : list AttendanceSession) :
  no_duration_while_open l ->
  forall (acc : Z) (w : World),
    reduce (add_minutes env) l acc w =
    (acc + closed_minutes l + live_minutes (clock env) (ticks w) l,
     later w (List.length (filter is_open l))).
Proof.
  induction l as [|s l IH]; intros Hwf acc w.
  - cbn. unfold ret, later, closed_minutes. cbn.
    rewrite Nat.add_0_r, !Z.add_0_r. destruct w; reflexivity.
  - assert (Hl : no_duration_while_open l)
      by (intros x Hx; apply Hwf; right; exact Hx).
    specialize (IH Hl).
    cbn [reduce]. unfold bind at 1.
    unfold add_minutes, closed_minutes.
    cbn [filter live_minutes].
    destruct (is_open s) eqn:Hopen; cbn [negb].
    + rewrite (Hwf s (or_introl eq_refl) Hopen). cbn [JS.truthy_number].
      unfold bind, Date_now, ret. rewrite IH.
      unfold later, closed_minutes, JS.floor_div. cbn [ticks db reqs minted toasts console List.length].
      change (1000 * 60) with 60000.
      f_equal; [lia|]. f_equal. lia.
    + cbn [map fold_right]. unfold stored_minutes at 1.
      destruct (duration_minutes s) as [d|]; cbn [JS.truthy_number].
      * destruct (Z.eqb_spec d 0) as [->|Hnz]; unfold ret; rewrite IH;
          unfold closed_minutes; f_equal; lia.
      * unfold ret. rewrite IH. unfold closed_minutes. f_equal; lia.
Qed.

Lemma live_minutes_filter (clk : nat -> instant) (l : list AttendanceSession) :
  forall t, live_minutes clk t l = live_minutes clk t (filter is_open l).
Proof.
  induction l as [|s l IH]; intros t; [reflexivity|].
  cbn [filter live_minutes].
  destruct (is_open s) eqn:Hopen; cbn [live_minutes].
  - rewrite Hopen, IH. reflexivity.
  - apply IH.
Qed.

(** C3. For a session list that obeys the data model (no stored
    duration on an open session), the daily total computed at render
    time is the sum of [duration_minutes] over the closed sessions plus,
    for every open session, the live elapsed
    [floor ((now - check_in_time) / 60,000 ms)], [now] being the clock
    reading taken for that session; with no open session it is the sum
    alone and with a single open session there is a single [now].  The
    total is displayed as [Hh Mm] with [H = floor (total / 60)] and
    [M = total % 60], which for a non-negative total is the quotient and
    remainder of the division by 60.  Two closed sessions of 30 and 45
    minutes give 75 minutes, displayed as "1h 15m". *)
Theorem C3_daily_total (env : Env) (l : list AttendanceSession) (w : World) :
  no_duration_while_open l ->
  let total := fst (totalMinutes env l w) in
  total = closed_minutes l + live_minutes (clock env) (ticks w) l /\
  (filter is_open l = [] -> total = closed_minutes l) /\
  (forall a, filter is_open l = [a] ->
     total = closed_minutes l
             + (clock env (ticks w) - check_in_time a) / 60000) /\
  todays_total total = hours_minutes (total / 60) (Z.rem total 60) /\
  (0 <= total ->
   0 <= Z.rem total 60 < 60 /\ total = 60 * (total / 60) + Z.rem total 60) /\
  fst (totalMinutes env two_closed_sessions w) = 75 /\
  todays_total 75 = "1h 15m".
Proof.
  intros Hwf total.
  assert (Htotal : total
                   = closed_minutes l + live_minutes (clock env) (ticks w) l).
  { unfold total, totalMinutes. rewrite (reduce_add_minutes env l Hwf).
    cbn [fst]. lia. }
  split; [exact Htotal|].
  split.
  { intros Hnone. rewrite Htotal, live_minutes_filter, Hnone. cbn. lia. }
  split.
  { intros a Hone. rewrite Htotal, live_minutes_filter, Hone.
    assert (Ha : is_open a = true).
    { assert (Hin : In a (filter is_open l))
        by (rewrite Hone; left; reflexivity).
      apply filter_In in Hin. exact (proj2 Hin). }
    cbn [live_minutes]. rewrite Ha. lia. }
  split; [reflexivity|].
  split.
  { intros Hpos. rewrite Z.rem_mod_nonneg by lia.
    split; [apply Z.mod_pos_bound; lia|].
    apply Z.div_mod; lia. }
  split; reflexivity.
Qed.

Lemma C3_daily_total_witness :
  fst (totalMinutes (steady 42000000)
         (two_closed_sessions ++ [open_at 39600000]) (later empty_world 1))
  = 75 + 40.
Proof.
  refine (proj1 (proj2 (proj2
            (C3_daily_total (steady 42000000)
               (two_closed_sessions ++ [open_at 39600000])
               (later empty_world 1) _)))
          (open_at 39600000) eq_refl).
  intros s [<-|[<-|[<-|[]]]] Hopen; try discriminate Hopen; reflexivity.
Defined.

(** *** The store's ordering *)

Section Ordering.

Lemma place_perm (x : AttendanceSession) (l : list AttendanceSession) :
  Permutation (place x l) (x :: l).
Proof.
  induction l as [|y l IH]; cbn [place]; [reflexivity|].
  destruct (check_in_time x <=? check_in_time y); [reflexivity|].
  rewrite IH. apply perm_swap.
Qed.

Lemma order_perm (l : list AttendanceSession) :
  Permutation (order_by_check_in_time l) l.
Proof.
  induction l as [|x l IH]; [reflexivity|].
  cbn [order_by_check_in_time fold_right].
  fold (order_by_check_in_time l).
  rewrite place_perm. constructor. exact IH.
Qed.

Lemma place_ascending (x : AttendanceSession) (l : list AttendanceSession) :
  ascending l -> ascending (place x l).
Proof.
  unfold ascending.
  induction l as [|y l IH]; intros Hl; cbn [place].
  - repeat constructor.
  - destruct (Z.leb_spec (check_in_time x) (check_in_time y)) as [Hle|Hgt].
    + constructor; [exact Hl|].
      inversion Hl as [|? ? _ Hall]; subst.
      constructor; [exact Hle|].
      eapply Forall_impl; [|exact Hall].
      unfold not_after. intros z Hz. lia.
    + inversion Hl as [|? ? Hl' Hall]; subst.
      constructor; [apply IH; exact Hl'|].
      apply (Permutation_Forall (Permutation_sym (place_perm x l))).
      constructor; [unfold not_after; lia|exact Hall].
Qed.

Lemma order_ascending (l : list AttendanceSession) :
  ascending (order_by_check_in_time l).
Proof.
  induction l as [|x l IH]; [constructor|].
  cbn [order_by_check_in_time fold_right]. apply place_ascending. exact IH.
Qed.

Lemma select_sessions_ascending (rows : list AttendanceSession)
    (u : uuid) (d : day) :
  ascending (select_sessions rows u d).
Proof. apply order_ascending. Qed.

Lemma select_sessions_perm (rows : list AttendanceSession)
    (u : uuid) (d : day) :
  Permutation (select_sessions rows u d)
    (filter (fun r => String.eqb (user_id r) u && String.eqb (date r) d)
            rows).
Proof. apply order_perm. Qed.

Lemma select_sessions_In (rows : list AttendanceSession)
    (u : uuid) (d : day) (r : AttendanceSession) :
  In r (select_sessions rows u d) <->
  In r rows /\ user_id r = u /\ date r = d.
Proof.
  split.
  - intros Hin.
    apply (Permutation_in _ (select_sessions_perm rows u d)) in Hin.
    apply filter_In in Hin. destruct Hin as [Hin Hb].
    apply andb_true_iff in Hb. destruct Hb as [Hu Hd].
    apply String.eqb_eq in Hu, Hd. auto.
  - intros (Hin & Hu & Hd).
    apply (Permutation_in _ (Permutation_sym (select_sessions_perm rows u d))).
    apply filter_In. split; [exact Hin|].
    rewrite Hu, Hd, !String.eqb_refl. reflexivity.
Qed.

(** In an ascending list, [find] returns the earliest match. *)
Lemma find_earliest (f : AttendanceSession -> bool)
    (l : list AttendanceSession) (a : AttendanceSession) :
  ascending l -> find f l = Some a ->
  forall s, In s l -> f s = true -> not_after a s.
Proof.
  unfold ascending.
  induction l as [|x l IH]; intros Hl Hfind s Hin Hs; [destruct Hin|].
  inversion Hl as [|? ? Hl' Hall]; subst.
  cbn [find] in Hfind. destruct (f x) eqn:Hfx.
  - injection Hfind as ->. destruct Hin as [->|Hin].
    + unfold not_after. lia.
    + rewrite Forall_forall in Hall. apply Hall. exact Hin.
  - destruct Hin as [->|Hin]; [congruence|].
    apply IH; assumption.
Qed.

End Ordering.

(** *** What [confirmPhoto] does, case by case *)

Lemma confirmPhoto_check_in (env : Env) (st : State) (w : World)
    (uid image : string) :
  JS.truthy_string (user st) = Some uid ->
  JS.truthy_string (capturedImage st) = Some image ->
  captureType st = check_in ->
  confirmPhoto env st w =
  if faults env (reqs w) then
    (st, written w 1 0 (db w) (toast_error "Failed to save attendance")
                 [request_failed])
  else if existsb (has_id (uuids env (minted w))) (db w) then
    (st, written w 1 1 (db w) (toast_error "Failed to save attendance")
                 [unique_violation])
  else
    (after_write st,
     written w 1 1
       (db w ++ [opened (uuids env (minted w)) uid (today st)
                        (clock env (ticks w)) image])
       (toast_success "Checked in successfully!") []).
Proof.
  intros Hu Hi Ht. unfold confirmPhoto. rewrite Hu, Hi, Ht.
  unfold bind, Date_now, insert, bind, round_trip, gen_random_uuid, ret.
  cbn [fst snd db ticks reqs minted toasts console].
  unfold written, save_failed, bind, toast, console_error, ret, with_db, opened.
  destruct (faults env (reqs w)).
  - cbn. rewrite Nat.add_0_r, Nat.add_1_r. reflexivity.
  - cbn [db ticks reqs minted toasts console].
    destruct (existsb (has_id (uuids env (minted w))) (db w)); cbn;
      rewrite !Nat.add_1_r, ?app_nil_r; reflexivity.
Qed.

Lemma confirmPhoto_check_out (env : Env) (st : State) (w : World)
    (uid image : string) (a : AttendanceSession) :
  JS.truthy_string (user st) = Some uid ->
  JS.truthy_string (capturedImage st) = Some image ->
  captureType st = check_out ->
  activeSession (sessions st) = Some a ->
  confirmPhoto env st w =
  if faults env (reqs w) then
    (st, written w 2 0 (db w) (toast_error "Failed to save attendance")
                 [request_failed])
  else
    (after_write st,
     written w 2 0
       (map (closing uid (id a) (clock env (S (ticks w))) image
               ((clock env (ticks w) - check_in_time a) / 60000))
            (db w))
       (toast_success "Checked out successfully!") []).
Proof.
  intros Hu Hi Ht Ha. unfold confirmPhoto. rewrite Hu, Hi, Ht, Ha.
  unfold bind, Date_now, update, bind, round_trip, ret.
  cbn [fst snd db ticks reqs minted toasts console].
  unfold written, save_failed, bind, toast, console_error, ret, with_db.
  destruct (faults env (reqs w));
    cbn; rewrite Nat.add_0_r, ?app_nil_r;
    replace (ticks w + 2)%nat with (S (S (ticks w))) by lia; reflexivity.
Qed.

Lemma confirmPhoto_not_checked_in (env : Env) (st : State) (w : World) :
  captureType st = check_out ->
  activeSession (sessions st) = None ->
  confirmPhoto env st w = (st, w).
Proof.
  intros Ht Ha. unfold confirmPhoto. rewrite Ht, Ha.
  destruct (JS.truthy_string (user st));
    destruct (JS.truthy_string (capturedImage st)); reflexivity.
Qed.

Lemma issues_write_inv (st : State) :
  issues_write st = true ->
  exists uid image,
    JS.truthy_string (user st) = Some uid /\
    JS.truthy_string (capturedImage st) = Some image /\
    (captureType st = check_in \/
     captureType st = check_out /\
     exists a, activeSession (sessions st) = Some a).
Proof.
  unfold issues_write, isCheckedIn.
  destruct (JS.truthy_string (user st)) as [uid|]; [|discriminate].
  destruct (JS.truthy_string (capturedImage st)) as [image|]; [|discriminate].
  intros H. exists uid, image. repeat split.
  destruct (captureType st); [left; reflexivity|right].
  split; [reflexivity|].
  destruct (activeSession (sessions st)) as [a|]; [|discriminate].
  exists a. reflexivity.
Qed.

(** *** Check-out without an active session *)





(** *** Failed writes *)

(** C5. When the write issued by [confirmPhoto] (the insert of a
    check-in, the update of a check-out) comes back with an error, the
    table and the whole component state are exactly as before, the user
    is told "Failed to save attendance" and the error is logged.  The
    operation is still armed (same capture type, same photo), and
    invoking it again when the store answers performs the write on the
    unchanged table and reports success. *)
Theorem C5_failed_write_commits_nothing (env : Env) (st : State) (w : World) :
  issues_write st = true ->
  write_fails env st w = true ->
  let st' := fst (confirmPhoto env st w) in
  let w' := snd (confirmPhoto env st w) in
  st' = st /\
  db w' = db w /\
  toasts w' = toasts w ++ [toast_error "Failed to save attendance"] /\
  (exists e, console w' = console w ++ [e]) /\
  issues_write st' = true /\
  (write_fails env st' w' = false ->
   let st'' := fst (confirmPhoto env st' w') in
   let w'' := snd (confirmPhoto env st' w') in
   st'' = after_write st /\
   (exists msg, toasts w'' = toasts w' ++ [toast_success msg]) /\
   match captureType st with
   | check_in =>
       exists row, db w'' = db w ++ [row] /\ is_open row = true /\
                   JS.truthy_string (user st) = Some (user_id row)
   | check_out =>
       exists uid a out image minutes,
         JS.truthy_string (user st) = Some uid /\
         activeSession (sessions st) = Some a /\
         db w'' = map (closing uid (id a) out image minutes) (db w)
   end).
Proof.
  intros Hw Hf st' w'.
  destruct (issues_write_inv st Hw) as (uid & image & Hu & Hi & Hcase).
  destruct Hcase as [Ht | (Ht & a & Ha)].
  - (* check-in *)
    pose proof (confirmPhoto_check_in env st w uid image Hu Hi Ht) as E.
    unfold write_fails in Hf. rewrite Ht in Hf.
    assert (Est : st' = st /\ db w' = db w /\
                  toasts w' = toasts w ++ [toast_error "Failed to save attendance"] /\
                  (exists e, console w' = console w ++ [e]) /\
                  reqs w' = S (reqs w)).
    { unfold st', w'. rewrite E.
      destruct (faults env (reqs w)).
      - cbn. repeat split. exists request_failed. reflexivity.
      - cbn [orb] in Hf. rewrite Hf. cbn. repeat split.
        exists unique_violation. reflexivity. }
    destruct Est as (E1 & E2 & E3 & E4 & E5).
    repeat (split; [assumption|]).
    split; [rewrite E1; exact Hw|].
    intros Hok st'' w''. unfold st'', w''.
    rewrite E1 in *. clear st''  w''.
    pose proof (confirmPhoto_check_in env st w' uid image Hu Hi Ht) as E'.
    unfold write_fails in Hok. rewrite Ht in Hok.
    apply orb_false_iff in Hok. destruct Hok as [Hok1 Hok2].
    rewrite Hok1, Hok2 in E'. rewrite E', Ht. cbn [fst snd written db toasts].
    split; [reflexivity|]. split; [eexists; reflexivity|].
    eexists. rewrite E2. split; [reflexivity|]. split; [reflexivity|exact Hu].
  - (* check-out *)
    pose proof (confirmPhoto_check_out env st w uid image a Hu Hi Ht Ha) as E.
    unfold write_fails in Hf. rewrite Ht in Hf. rewrite Hf in E.
    assert (E1 : st' = st) by (unfold st'; rewrite E; reflexivity).
    assert (E2 : db w' = db w) by (unfold w'; rewrite E; reflexivity).
    split; [exact E1|]. split; [exact E2|].
    split; [unfold w'; rewrite E; reflexivity|].
    split; [exists request_failed; unfold w'; rewrite E; reflexivity|].
    split; [rewrite E1; exact Hw|].
    intros Hok st'' w''. unfold st'', w''.
    rewrite E1 in *. clear st'' w''.
    pose proof (confirmPhoto_check_out env st w' uid image a Hu Hi Ht Ha) as E'.
    unfold write_fails in Hok. rewrite Ht in Hok.
    rewrite Hok in E'. rewrite E', Ht. cbn [fst snd written db toasts].
    split; [reflexivity|]. split; [eexists; reflexivity|].
    exists uid, a. do 3 eexists. rewrite E2.
    split; [exact Hu|]. split; [exact Ha|reflexivity].
Qed.

Lemma C5_failed_write_commits_nothing_witness :
  fst (confirmPhoto flaky (armed [] check_in "in") empty_world)
  = armed [] check_in "in" /\
  db (snd (confirmPhoto flaky (armed [] check_in "in") empty_world)) = [] /\
  fst (run flaky [click_confirm; click_confirm] (armed [] check_in "in")
           empty_world)
  = after_write (armed [] check_in "in").
Proof.
  destruct (C5_failed_write_commits_nothing flaky (armed [] check_in "in")
              empty_world eq_refl eq_refl) as (H1 & H2 & _ & _ & _ & H6).
  split; [exact H1|]. split; [exact H2|].
  exact (proj1 (H6 eq_refl)).
Defined.

(** *** Duration stored at check-out *)

(** C1, as the code has it.  A confirmed check-out of the active
    session [a] rewrites the table through [closing]: every row it
    touches gets [check_out_time = out] and
    [duration_minutes = floor ((now - check_in_time a) / 60,000 ms)],
    where [now] is the [Date.now()] reading taken first and [out] the
    reading taken next for [check_out_time].  The stored value is not
    clamped: it is non-negative exactly when [now] is not before the
    check-in instant; and it is the floor of
    [(check_out_time - check_in_time) / 60 s] when the two readings
    coincide. *)
Theorem C1_duration_at_check_out (env : Env) (st : State) (w : World)
    (uid image : string) (a : AttendanceSession) :
  JS.truthy_string (user st) = Some uid ->
  JS.truthy_string (capturedImage st) = Some image ->
  captureType st = check_out ->
  activeSession (sessions st) = Some a ->
  faults env (reqs w) = false ->
  let now := clock env (ticks w) in
  let out := clock env (S (ticks w)) in
  let minutes := (now - check_in_time a) / 60000 in
  let w' := snd (confirmPhoto env st w) in
  db w' = map (closing uid (id a) out image minutes) (db w) /\
  (forall r, In r (db w) -> id r = id a -> user_id r = uid ->
     exists r', In r' (db w') /\ id r' = id r /\
                check_in_time r' = check_in_time r /\
                check_out_time r' = Some out /\
                duration_minutes r' = Some minutes) /\
  (0 <= minutes <-> check_in_time a <= now) /\
  (out = now -> minutes = (out - check_in_time a) / 60000).
Proof.
  intros Hu Hi Ht Ha Hok now out minutes w'.
  assert (Hdb : db w' = map (closing uid (id a) out image minutes) (db w)).
  { unfold w'. rewrite (confirmPhoto_check_out env st w uid image a Hu Hi Ht Ha).
    rewrite Hok. reflexivity. }
  split; [exact Hdb|].
  split.
  { intros r Hr Hid Huid.
    exists (set_check_out out image minutes r).
    split.
    - rewrite Hdb. apply in_map_iff. exists r. split; [|exact Hr].
      unfold closing, has_id. rewrite Hid, Huid, !String.eqb_refl. reflexivity.
    - repeat split. }
  split.
  { unfold minutes. split; intros H.
    - destruct (Z_le_gt_dec (check_in_time a) now) as [Hle|Hgt]; [exact Hle|].
      assert ((now - check_in_time a) / 60000 < 0)
        by (apply Z.div_lt_upper_bound; lia).
      lia.
    - apply Z.div_pos; lia. }
  intros E. unfold minutes. rewrite E. reflexivity.
Qed.

Lemma C1_duration_at_check_out_witness :
  db (snd (confirmPhoto (steady 90000)
             (armed [open_at 0] check_out "out")
             (with_db (later empty_world 1) [open_at 0])))
  = [ mkSession "s1" "u1" "2026-01-11" 0 (Some 180000)
                (Some "in") (Some "out") (Some 1) ].
Proof.
  exact (proj1 (C1_duration_at_check_out (steady 90000)
                  (armed [open_at 0] check_out "out")
                  (with_db (later empty_world 1) [open_at 0])
                  "u1" "out" (open_at 0)
                  eq_refl eq_refl eq_refl eq_refl eq_refl)).
Defined.

(** C1 as stated fails on the code in two ways.  With the readings
    0 (check-in), 59,999 ([Date.now()]) and 60,000 ([new Date()]) the
    session is stored with [check_out_time - check_in_time] = 60 s and
    [duration_minutes = 0], not 1.  With a clock that is set back after
    the check-in, readings 60,000 then 0, the stored duration is -1. *)
Lemma C1_counterexample :
  (db (snd (run (scripted [0; 59999; 60000]) one_session_day
                (mount (Some "u1") "2026-01-11") empty_world))
   = [ mkSession "0" "u1" "2026-01-11" 0 (Some 60000)
                 (Some "in") (Some "out") (Some 0) ] /\
   (60000 - 0) / 60000 = 1) /\
  (db (snd (run (scripted [60000; 0; 0]) one_session_day
                (mount (Some "u1") "2026-01-11") empty_world))
   = [ mkSession "0" "u1" "2026-01-11" 60000 (Some 0)
                 (Some "in") (Some "out") (Some (-1)) ] /\
   -1 < 0).
Proof. vm_compute. repeat split. Qed.


(** *** The session list of the component *)

Lemma confirmPhoto_sessions (env : Env) (st : State) (w : World) :
  sessions (fst (confirmPhoto env st w)) = sessions st.
Proof.
  destruct (JS.truthy_string (user st)) as [uid|] eqn:Hu;
    [|unfold confirmPhoto; rewrite Hu; reflexivity].
  destruct (JS.truthy_string (capturedImage st)) as [image|] eqn:Hi;
    [|unfold confirmPhoto; rewrite Hu, Hi; reflexivity].
  destruct (captureType st) eqn:Ht.
  - rewrite (confirmPhoto_check_in env st w uid image Hu Hi Ht).
    destruct (faults env (reqs w)); [reflexivity|].
    destruct (existsb _ _); reflexivity.
  - destruct (activeSession (sessions st)) as [a|] eqn:Ha.
    + rewrite (confirmPhoto_check_out env st w uid image a Hu Hi Ht Ha).
      destruct (faults env (reqs w)); reflexivity.
    + rewrite (confirmPhoto_not_checked_in env st w Ht Ha). reflexivity.
Qed.

Lemma queryFn_result (env : Env) (st : State) (w : World) :
  fst (queryFn env st w) = [] \/
  exists u, JS.truthy_string (user st) = Some u /\
            faults env (reqs w) = false /\
            fst (queryFn env st w) = select_sessions (db w) u (today st).
Proof.
  unfold queryFn.
  destruct (JS.truthy_string (user st)) as [u|]; [|left; reflexivity].
  unfold bind, round_trip, ret. cbn [fst snd db].
  destruct (faults env (reqs w)) eqn:Hf; [left; reflexivity|].
  right. exists u. repeat split.
Qed.

Lemma step_ascending (env : Env) (ev : Event) (st : State) (w : World) :
  ascending (sessions st) -> ascending (sessions (fst (step env ev st w))).
Proof.
  intros Hst. destruct ev; cbn [step]; try exact Hst.
  - unfold capturePhoto. destruct frame; exact Hst.
  - rewrite confirmPhoto_sessions. exact Hst.
  - unfold bind. destruct (queryFn env st w) as [data w'] eqn:Hq.
    cbn [ret fst]. unfold elapsed_effect.
    assert (Hdata : ascending data).
    { destruct (queryFn_result env st w) as [E | (u & _ & _ & E)];
        rewrite Hq in E; cbn [fst] in E; rewrite E.
      - constructor.
      - apply select_sessions_ascending. }
    destruct (isCheckedIn (sessions (set_sessions st data))); exact Hdata.
  - unfold interval_callback.
    destruct (activeSession (sessions st)); exact Hst.
Qed.

Lemma run_ascending (env : Env) (evs : list Event) :
  forall (st : State) (w : World),
    ascending (sessions st) -> ascending (sessions (fst (run env evs st w))).
Proof.
  induction evs as [|ev evs IH]; intros st w Hst; [exact Hst|].
  cbn [run]. unfold bind.
  pose proof (step_ascending env ev st w Hst) as Hstep.
  destruct (step env ev st w) as [st' w']. apply IH. exact Hstep.
Qed.

Lemma map_indexed_nth {A B : Type} (f : A -> nat -> B) (l : list A) :
  forall (k i : nat) (x : A),
    nth_error l i = Some x ->
    nth_error (map_indexed f l k) i = Some (f x (k + i)%nat).
Proof.
  induction l as [|y l IH]; intros k i x Hnth; [destruct i; discriminate|].
  destruct i as [|i]; cbn in Hnth |- *.
  - injection Hnth as ->. rewrite Nat.add_0_r. reflexivity.
  - rewrite (IH (S k) i x Hnth). f_equal. f_equal. lia.
Qed.

Lemma map_indexed_titles (l : list AttendanceSession) :
  forall k,
    map row_title (map_indexed session_row l k) =
    map (fun i => String.append "Session " (JS.toString (Z.of_nat i + 1)))
        (seq k (List.length l)).
Proof.
  induction l as [|x l IH]; intros k; [reflexivity|].
  cbn [map_indexed map List.length seq]. rewrite IH. reflexivity.
Qed.

(** C9. Whatever the user does after the component is mounted, the
    session list it holds is in ascending [check_in_time] order; a query
    that goes through returns exactly the user's rows of the day in that
    order.  The row drawn at position [i] (counting from 0) belongs to
    the session at that position and is titled "Session i+1": the titles
    are "Session 1", ..., "Session n" for a list of [n] sessions,
    whatever the records contain. *)
Theorem C9_sessions_ordered_and_numbered (env : Env) (u : option uuid)
    (d : day) (evs : list Event) (w : World) :
  let st := fst (run env evs (mount u d) w) in
  ascending (sessions st) /\
  (forall i s, nth_error (sessions st) i = Some s ->
     exists row, nth_error (session_rows (sessions st)) i = Some row /\
                 row_key row = id s /\
                 row_title row =
                 String.append "Session " (JS.toString (Z.of_nat i + 1))) /\
  map row_title (session_rows (sessions st))
  = session_titles (List.length (sessions st)) /\
  (forall st0 w0 uid,
     JS.truthy_string (user st0) = Some uid ->
     faults env (reqs w0) = false ->
     let data := fst (queryFn env st0 w0) in
     ascending data /\
     Permutation data
       (filter (fun r => String.eqb (user_id r) uid
                         && String.eqb (date r) (today st0))
               (db w0))).
Proof.
  intros st.
  split.
  { apply run_ascending. constructor. }
  split.
  { intros i s Hnth. exists (session_row s i). split.
    - unfold session_rows.
      rewrite (map_indexed_nth session_row (sessions st) 0 i s Hnth).
      reflexivity.
    - split; reflexivity. }
  split.
  { apply map_indexed_titles. }
  intros st0 w0 uid Hu Hok data.
  assert (E : data = select_sessions (db w0) uid (today st0)).
  { unfold data, queryFn. rewrite Hu.
    unfold bind, round_trip, ret. cbn [fst snd db]. rewrite Hok. reflexivity. }
  rewrite E. split.
  - apply select_sessions_ascending.
  - apply select_sessions_perm.
Qed.

Lemma C9_sessions_ordered_and_numbered_witness :
  map row_title
    (session_rows
       (sessions (fst (run (steady 1000) [query_settled]
                           (mount (Some "u1") "2026-01-11")
                           (with_db empty_world two_open)))))
  = ["Session 1"; "Session 2"] /\
  map id
    (sessions (fst (run (steady 1000) [query_settled]
                        (mount (Some "u1") "2026-01-11")
                        (with_db empty_world two_open))))
  = ["s1"; "s2"].
Proof.
  split.
  - exact (proj1 (proj2 (proj2
             (C9_sessions_ordered_and_numbered (steady 1000) (Some "u1")
                "2026-01-11" [query_settled] (with_db empty_world two_open))))).
  - reflexivity.
Defined.

(** *** Which record a check-out touches *)

Lemma find_some_of_filter (l : list AttendanceSession) :
  filter is_open l <> [] -> exists a, find is_open l = Some a.
Proof.
  induction l as [|x l IH]; cbn [filter find]; [congruence|].
  destruct (is_open x); [intros _; exists x; reflexivity|exact IH].
Qed.

Lemma other_ids (before after : list AttendanceSession)
    (a : AttendanceSession) :
  primary_key (before ++ a :: after) ->
  forall r, In r (before ++ after) -> id r <> id a.
Proof.
  unfold primary_key. rewrite map_app. cbn [map].
  intros Hnd r Hin Heq.
  apply NoDup_remove_2 in Hnd. apply Hnd.
  rewrite <- map_app, <- Heq. apply in_map. exact Hin.
Qed.

Lemma closing_only_target (uid image : string) (out : instant) (minutes : Z)
    (before after : list AttendanceSession) (a : AttendanceSession) :
  primary_key (before ++ a :: after) ->
  user_id a = uid ->
  map (closing uid (id a) out image minutes) (before ++ a :: after)
  = before ++ set_check_out out image minutes a :: after.
Proof.
  intros Hpk Hu.
  pose proof (other_ids before after a Hpk) as Hother.
  assert (Hskip : forall l, (forall r, In r l -> id r <> id a) ->
                            map (closing uid (id a) out image minutes) l = l).
  { intros l Hl. rewrite <- (map_id l) at 2. apply map_ext_in.
    intros r Hr. unfold closing, has_id.
    destruct (String.eqb_spec (id r) (id a)) as [E|_]; [|reflexivity].
    exfalso. exact (Hl r Hr E). }
  rewrite map_app. cbn [map].
  rewrite (Hskip before), (Hskip after).
  - unfold closing at 1, has_id. rewrite Hu, !String.eqb_refl. reflexivity.
  - intros r Hr. apply Hother, in_or_app. right. exact Hr.
  - intros r Hr. apply Hother, in_or_app. left. exact Hr.
Qed.

(** C10. Let the table respect its primary key and let the component's
    session list be the current answer of the sessions query, with more
    than one open session in it.  A confirmed check-out then takes the
    first open session [a] of the list, which is the earliest open
    session by [check_in_time], and replaces the one row [a] of the
    table by the same row with [check_out_time], [check_out_photo] and
    [duration_minutes] set; the rows before and after it are kept as
    they are, and in particular every other open session is still in
    the table, still open. *)
Theorem C10_check_out_closes_earliest_only (env : Env) (st : State)
    (w : World) (uid image : string) :
  JS.truthy_string (user st) = Some uid ->
  JS.truthy_string (capturedImage st) = Some image ->
  captureType st = check_out ->
  primary_key (db w) ->
  sessions st = select_sessions (db w) uid (today st) ->
  (1 < List.length (filter is_open (sessions st)))%nat ->
  faults env (reqs w) = false ->
  let w' := snd (confirmPhoto env st w) in
  exists a before after,
    activeSession (sessions st) = Some a /\
    is_open a = true /\
    (forall s, In s (sessions st) -> is_open s = true ->
               check_in_time a <= check_in_time s) /\
    db w = before ++ a :: after /\
    db w' = before
            ++ set_check_out (clock env (S (ticks w))) image
                 ((clock env (ticks w) - check_in_time a) / 60000) a
            :: after /\
    (forall s, In s (sessions st) -> is_open s = true -> s <> a ->
               In s (db w')).
Proof.
  intros Hu Hi Ht Hpk Hsync Hmany Hok w'.
  destruct (find_some_of_filter (sessions st)) as [a Ha].
  { intros E. rewrite E in Hmany. cbn in Hmany. lia. }
  assert (Hina : In a (sessions st)) by (apply (find_some _ _ Ha)).
  assert (Hopen : is_open a = true) by (apply (find_some _ _ Ha)).
  rewrite Hsync in Hina. apply select_sessions_In in Hina.
  destruct Hina as (Hdb & Hown & _).
  destruct (in_split a (db w) Hdb) as (before & after & Hsplit).
  assert (Hdb' : db w' = before
                         ++ set_check_out (clock env (S (ticks w))) image
                              ((clock env (ticks w) - check_in_time a) / 60000)
                              a
                         :: after).
  { unfold w'. rewrite (confirmPhoto_check_out env st w uid image a Hu Hi Ht Ha).
    rewrite Hok. cbn [snd written db]. rewrite Hsplit.
    apply closing_only_target; [rewrite <- Hsplit; exact Hpk|exact Hown]. }
  exists a, before, after.
  split; [exact Ha|]. split; [exact Hopen|].
  split.
  { intros s Hs Hso.
    apply (find_earliest is_open (sessions st) a); try assumption.
    rewrite Hsync. apply select_sessions_ascending. }
  split; [exact Hsplit|]. split; [exact Hdb'|].
  intros s Hs _ Hne. rewrite Hsync in Hs. apply select_sessions_In in Hs.
  destruct Hs as (Hs & _). rewrite Hsplit in Hs. rewrite Hdb'.
  apply in_app_or in Hs. apply in_or_app.
  destruct Hs as [Hs|[Hs|Hs]]; [left; exact Hs|congruence|right; right; exact Hs].
Qed.

Lemma C10_check_out_closes_earliest_only_witness :
  db (snd (confirmPhoto (steady 60000)
             (armed [open_at 0; late_session] check_out "out")
             (with_db (later empty_world 5) two_open)))
  = [ late_session;
      mkSession "s1" "u1" "2026-01-11" 0 (Some 360000)
                (Some "in") (Some "out") (Some 5) ].
Proof.
  destruct (C10_check_out_closes_earliest_only (steady 60000)
              (armed [open_at 0; late_session] check_out "out")
              (with_db (later empty_world 5) two_open) "u1" "out"
              eq_refl eq_refl eq_refl)
    as (a & before & after & _ & _ & _ & _ & _ & _).
  - repeat constructor; cbn; intuition discriminate.
  - reflexivity.
  - cbn. lia.
  - reflexivity.
  - reflexivity.
Defined.

(** *** Check-in while a session is open *)













(** *** Order of the two instants of a session *)

Section Timeline.

Variable env : Env.
Hypothesis clock_steady : never_goes_back (clock env).
Hypothesis clock_advances : advances_every_other (clock env).

Lemma well_timed_same_table (w w' : World) :
  db w' = db w -> (ticks w <= ticks w')%nat ->
  well_timed env w -> well_timed env w'.
Proof.
  intros Hdb Hticks [Hpast Hord]. split.
  - intros r Hr. rewrite Hdb in Hr.
    pose proof (Hpast r Hr).
    assert (clock env (S (ticks w)) <= clock env (S (ticks w')))
      by (apply clock_steady; lia).
    lia.
  - rewrite Hdb. exact Hord.
Qed.

Lemma well_timed_insert (w : World) (n k : nat) (fresh u : uuid) (d : day)
    (photo : string) (t : Toast) (log : list StoreError) :
  (0 < n)%nat ->
  well_timed env w ->
  well_timed env
    (written w n k (db w ++ [opened fresh u d (clock env (ticks w)) photo])
             t log).
Proof.
  intros Hn [Hpast Hord].
  assert (Hnew : clock env (ticks w) < clock env (S (ticks w + n))).
  { pose proof (clock_advances (ticks w)).
    assert (clock env (ticks w + 2) <= clock env (S (ticks w + n)))
      by (apply clock_steady; lia).
    lia. }
  assert (Hold : clock env (S (ticks w)) <= clock env (S (ticks w + n)))
    by (apply clock_steady; lia).
  split.
  - intros r Hr. cbn [written db ticks] in Hr |- *.
    apply in_app_or in Hr. destruct Hr as [Hr|[<-|[]]].
    + pose proof (Hpast r Hr). lia.
    + exact Hnew.
  - intros r out Hr Hout. cbn [written db] in Hr.
    apply in_app_or in Hr. destruct Hr as [Hr|[<-|[]]].
    + exact (Hord r out Hr Hout).
    + discriminate Hout.
Qed.

Lemma well_timed_update (w : World) (k : nat) (uid target : uuid)
    (photo : string) (minutes : Z) (t : Toast) (log : list StoreError) :
  well_timed env w ->
  well_timed env
    (written w 2 k
       (map (closing uid target (clock env (S (ticks w))) photo minutes)
            (db w))
       t log).
Proof.
  intros [Hpast Hord].
  assert (Hlater : clock env (S (ticks w)) <= clock env (S (ticks w + 2)))
    by (apply clock_steady; lia).
  split.
  - intros r' Hr'. cbn [written db ticks] in Hr' |- *.
    apply in_map_iff in Hr'. destruct Hr' as (r & <- & Hr).
    pose proof (Hpast r Hr) as Hlt.
    unfold closing. destruct (has_id target r && _); cbn; lia.
  - intros r' out Hr' Hout. cbn [written db] in Hr'.
    apply in_map_iff in Hr'. destruct Hr' as (r & <- & Hr).
    pose proof (Hpast r Hr) as Hlt.
    unfold closing in Hout |- *.
    destruct (has_id target r && _).
    + cbn in Hout |- *. injection Hout as <-. lia.
    + exact (Hord r out Hr Hout).
Qed.

Lemma confirmPhoto_well_timed (st : State) (w : World) :
  well_timed env w -> well_timed env (snd (confirmPhoto env st w)).
Proof.
  intros Hw.
  destruct (JS.truthy_string (user st)) as [uid|] eqn:Hu;
    [|unfold confirmPhoto; rewrite Hu; exact Hw].
  destruct (JS.truthy_string (capturedImage st)) as [image|] eqn:Hi;
    [|unfold confirmPhoto; rewrite Hu, Hi; exact Hw].
  destruct (captureType st) eqn:Ht.
  - rewrite (confirmPhoto_check_in env st w uid image Hu Hi Ht).
    destruct (faults env (reqs w)); cbn [snd].
    + apply (well_timed_same_table w); [reflexivity|cbn; lia|exact Hw].
    + destruct (existsb _ _); cbn [snd].
      * apply (well_timed_same_table w); [reflexivity|cbn; lia|exact Hw].
      * apply well_timed_insert; [lia|exact Hw].
  - destruct (activeSession (sessions st)) as [a|] eqn:Ha.
    + rewrite (confirmPhoto_check_out env st w uid image a Hu Hi Ht Ha).
      destruct (faults env (reqs w)); cbn [snd].
      * apply (well_timed_same_table w); [reflexivity|cbn; lia|exact Hw].
      * apply well_timed_update. exact Hw.
    + rewrite (confirmPhoto_not_checked_in env st w Ht Ha). exact Hw.
Qed.

Lemma step_well_timed (ev : Event) (st : State) (w : World) :
  well_timed env w -> well_timed env (snd (step env ev st w)).
Proof.
  intros Hw. destruct ev; cbn [step]; try exact Hw.
  - apply confirmPhoto_well_timed. exact Hw.
  - unfold bind, queryFn.
    destruct (JS.truthy_string (user st)); cbn; [|exact Hw].
    destruct (faults env (reqs w)); cbn;
      apply (well_timed_same_table w); try reflexivity; cbn; try lia; exact Hw.
  - unfold interval_callback.
    destruct (activeSession (sessions st)); cbn; [|exact Hw].
    apply (well_timed_same_table w); [reflexivity|cbn; lia|exact Hw].
Qed.

Lemma run_well_timed (evs : list Event) :
  forall st w, well_timed env w -> well_timed env (snd (run env evs st w)).
Proof.
  induction evs as [|ev evs IH]; intros st w Hw; [exact Hw|].
  cbn [run]. unfold bind.
  pose proof (step_well_timed ev st w Hw) as Hstep.
  destruct (step env ev st w) as [st' w']. apply IH. exact Hstep.
Qed.

End Timeline.

(** C8, as the code has it.  Let the client clock never go back and
    let every reading be strictly later than the reading taken two
    readings before it (two readings in a row, such as the [Date.now()]
    and the [new Date()] of one check-out, may coincide).  Starting
    from a table whose check-in instants all lie strictly before the
    instant a check-out confirmed now would store and whose closed
    sessions end after they started, whatever the user does every
    session of the table keeps [check_out_time], when present, strictly
    after [check_in_time].  Nothing in the code or in the schema
    compares the two instants. *)
Theorem C8_check_out_after_check_in (env : Env) (evs : list Event)
    (st : State) (w : World) :
  never_goes_back (clock env) ->
  advances_every_other (clock env) ->
  recorded_before_check_out env w ->
  out_after_in (db w) ->
  forall r out,
    In r (db (snd (run env evs st w))) ->
    check_out_time r = Some out ->
    check_in_time r < out.
Proof.
  intros Hsteady Hclock Hpast Hord.
  exact (proj2 (run_well_timed env Hsteady Hclock evs st w
                  (conj Hpast Hord))).
Qed.

Lemma C8_check_out_after_check_in_witness :
  db (snd (run (paired 30000) one_session_day
               (mount (Some "u1") "2026-01-11") empty_world))
  = [ mkSession "0" "u1" "2026-01-11" 0 (Some 30000)
                (Some "in") (Some "out") (Some 0) ] /\
  check_in_time
    (mkSession "0" "u1" "2026-01-11" 0 (Some 30000)
               (Some "in") (Some "out") (Some 0))
  < 30000.
Proof.
  split; [reflexivity|].
  apply (C8_check_out_after_check_in (paired 30000) one_session_day
           (mount (Some "u1") "2026-01-11") empty_world).
  - intros i j Hij.
    change (30000 * ((Z.of_nat i + 1) / 2) <= 30000 * ((Z.of_nat j + 1) / 2)).
    Z.div_mod_to_equations. lia.
  - intros i.
    change (30000 * ((Z.of_nat i + 1) / 2)
            < 30000 * ((Z.of_nat (i + 2) + 1) / 2)).
    Z.div_mod_to_equations. lia.
  - intros r [].
  - intros r out [].
  - left. reflexivity.
  - reflexivity.
Defined.

(** C8 as stated fails on the code.  When the clock is set back between
    check-in (reading 60,000) and check-out (readings 0), the closed
    session is stored with a [check_out_time] that precedes its
    [check_in_time]. *)
Lemma C8_counterexample :
  exists r out,
    In r (db (snd (run (scripted [60000; 0; 0]) one_session_day
                       (mount (Some "u1") "2026-01-11") empty_world))) /\
    check_out_time r = Some out /\
    ~ check_in_time r < out.
Proof.
  exists (mkSession "0" "u1" "2026-01-11" 60000 (Some 0)
                    (Some "in") (Some "out") (Some (-1))), 0.
  split; [left; reflexivity|]. split; [reflexivity|]. cbn. lia.
Qed.

(** *** Reachable states respect the data model *)

Lemma confirmPhoto_table (env : Env) (st : State) (w : World) :
  let w' := snd (confirmPhoto env st w) in
  db w' = db w \/
  (exists fresh u d cin photo,
     existsb (has_id fresh) (db w) = false /\
     db w' = db w ++ [opened fresh u d cin photo]) \/
  (exists u target out photo minutes,
     db w' = map (closing u target out photo minutes) (db w)).
Proof.
  intros w'. unfold w'.
  destruct (JS.truthy_string (user st)) as [uid|] eqn:Hu;
    [|left; unfold confirmPhoto; rewrite Hu; reflexivity].
  destruct (JS.truthy_string (capturedImage st)) as [image|] eqn:Hi;
    [|left; unfold confirmPhoto; rewrite Hu, Hi; reflexivity].
  destruct (captureType st) eqn:Ht.
  - rewrite (confirmPhoto_check_in env st w uid image Hu Hi Ht).
    destruct (faults env (reqs w)); [left; reflexivity|].
    destruct (existsb _ _) eqn:Hfresh; [left; reflexivity|].
    right; left. do 5 eexists. split; [exact Hfresh|reflexivity].
  - destruct (activeSession (sessions st)) as [a|] eqn:Ha.
    + rewrite (confirmPhoto_check_out env st w uid image a Hu Hi Ht Ha).
      destruct (faults env (reqs w)); [left; reflexivity|].
      right; right. do 5 eexists. reflexivity.
    + rewrite (confirmPhoto_not_checked_in env st w Ht Ha). left; reflexivity.
Qed.

Lemma closing_keeps_id (u target : uuid) (out : instant) (photo : string)
    (minutes : Z) (r : AttendanceSession) :
  id (closing u target out photo minutes r) = id r.
Proof. unfold closing. destruct (has_id target r && _); reflexivity. Qed.

Lemma primary_key_insert (rows : list AttendanceSession) (fresh u : uuid)
    (d : day) (cin : instant) (photo : string) :
  existsb (has_id fresh) rows = false ->
  primary_key rows ->
  primary_key (rows ++ [opened fresh u d cin photo]).
Proof.
  unfold primary_key. intros Hfresh Hpk. rewrite map_app. cbn [map opened id].
  apply NoDup_app; [exact Hpk|repeat constructor; intros []|].
  intros x Hx [<-|[]].
  apply in_map_iff in Hx. destruct Hx as (r & Hid & Hr).
  assert (Hex : existsb (has_id (id r)) rows = true).
  { apply existsb_exists. exists r. split; [exact Hr|].
    unfold has_id. apply String.eqb_refl. }
  rewrite Hid in Hex. cbn [id] in Hex. congruence.
Qed.

Lemma primary_key_update (rows : list AttendanceSession) (u target : uuid)
    (out : instant) (photo : string) (minutes : Z) :
  primary_key rows ->
  primary_key (map (closing u target out photo minutes) rows).
Proof.
  unfold primary_key. intros Hpk. rewrite map_map.
  erewrite map_ext; [exact Hpk|]. intros r. apply closing_keeps_id.
Qed.

Lemma no_duration_insert (rows : list AttendanceSession) (fresh u : uuid)
    (d : day) (cin : instant) (photo : string) :
  no_duration_while_open rows ->
  no_duration_while_open (rows ++ [opened fresh u d cin photo]).
Proof.
  intros Hwf s Hs Hopen. apply in_app_or in Hs.
  destruct Hs as [Hs|[<-|[]]]; [exact (Hwf s Hs Hopen)|reflexivity].
Qed.

Lemma no_duration_update (rows : list AttendanceSession) (u target : uuid)
    (out : instant) (photo : string) (minutes : Z) :
  no_duration_while_open rows ->
  no_duration_while_open (map (closing u target out photo minutes) rows).
Proof.
  intros Hwf s' Hs' Hopen. apply in_map_iff in Hs'.
  destruct Hs' as (s & <- & Hs). unfold closing in Hopen |- *.
  destruct (has_id target s && _); [discriminate Hopen|].
  exact (Hwf s Hs Hopen).
Qed.

Lemma step_consistent (env : Env) (ev : Event) (st : State) (w : World) :
  consistent st w ->
  consistent (fst (step env ev st w)) (snd (step env ev st w)).
Proof.
  intros (Hpk & Hdb & Hss). destruct ev; cbn [step].
  - repeat split; assumption.
  - unfold capturePhoto. destruct frame; repeat split; assumption.
  - repeat split; assumption.
  - repeat split; assumption.
  - unfold consistent. rewrite confirmPhoto_sessions.
    destruct (confirmPhoto_table env st w)
      as [E | [(fresh & u & d & cin & photo & Hfresh & E)
             | (u & target & out & photo & minutes & E)]];
      rewrite E.
    + repeat split; assumption.
    + split; [apply primary_key_insert; assumption|].
      split; [apply no_duration_insert; assumption|assumption].
    + split; [apply primary_key_update; assumption|].
      split; [apply no_duration_update; assumption|assumption].
  - unfold bind. destruct (queryFn env st w) as [data w'] eqn:Hq.
    cbn [ret fst snd].
    assert (Hw' : db w' = db w).
    { unfold queryFn in Hq.
      destruct (JS.truthy_string (user st));
        [|injection Hq as _ <-; reflexivity].
      unfold bind, round_trip, ret in Hq. cbn [fst snd db] in Hq.
      destruct (faults env (reqs w)); injection Hq as _ <-; reflexivity. }
    assert (Hdata : no_duration_while_open data).
    { destruct (queryFn_result env st w) as [E | (u & _ & _ & E)];
        rewrite Hq in E; cbn [fst] in E; rewrite E.
      - intros s [].
      - intros s Hs. apply select_sessions_In in Hs. apply Hdb, Hs. }
    unfold consistent. rewrite Hw'.
    split; [exact Hpk|]. split; [exact Hdb|].
    unfold elapsed_effect.
    destruct (isCheckedIn (sessions (set_sessions st data))); exact Hdata.
  - unfold interval_callback.
    destruct (activeSession (sessions st)); repeat split; assumption.
  - repeat split; assumption.
Qed.

Lemma run_consistent (env : Env) (evs : list Event) :
  forall st w,
    consistent st w ->
    consistent (fst (run env evs st w)) (snd (run env evs st w)).
Proof.
  induction evs as [|ev evs IH]; intros st w Hc; [exact Hc|].
  cbn [run]. unfold bind.
  pose proof (step_consistent env ev st w Hc) as Hstep.
  destruct (step env ev st w) as [st' w']. apply IH. exact Hstep.
Qed.

(** From a fresh mount on an empty table, every state the component
    reaches has a table that respects its primary key, and both the
    table and the component's session list keep [duration_minutes]
    absent on open sessions. *)
Lemma reachable_consistent (env : Env) (u : option uuid) (d : day)
    (evs : list Event) :
  consistent (fst (run env evs (mount u d) empty_world))
             (snd (run env evs (mount u d) empty_world)).
Proof.
  apply run_consistent. split; [constructor|]. split; intros s [].
Qed.

(* ================================================================== *)
(** ** Further properties of the component *)

(** *** How [confirmPhoto] and [step] leave the component state *)

Lemma confirmPhoto_state (env : Env) (st : State) (w : World) :
  fst (confirmPhoto env st w) = st \/
  fst (confirmPhoto env st w) = after_write st.
Proof.
  destruct (JS.truthy_string (user st)) as [uid|] eqn:Hu;
    [|left; unfold confirmPhoto; rewrite Hu; reflexivity].
  destruct (JS.truthy_string (capturedImage st)) as [image|] eqn:Hi;
    [|left; unfold confirmPhoto; rewrite Hu, Hi; reflexivity].
  destruct (captureType st) eqn:Ht.
  - rewrite (confirmPhoto_check_in env st w uid image Hu Hi Ht).
    destruct (faults env (reqs w)); [left; reflexivity|].
    destruct (existsb _ _); [left|right]; reflexivity.
  - destruct (activeSession (sessions st)) as [a|] eqn:Ha.
    + rewrite (confirmPhoto_check_out env st w uid image a Hu Hi Ht Ha).
      destruct (faults env (reqs w)); [left|right]; reflexivity.
    + rewrite (confirmPhoto_not_checked_in env st w Ht Ha). left; reflexivity.
Qed.

Lemma step_user_today (env : Env) (ev : Event) (st : State) (w : World) :
  user (fst (step env ev st w)) = user st /\
  today (fst (step env ev st w)) = today st.
Proof.
  destruct ev; cbn [step]; try (split; reflexivity).
  - unfold capturePhoto. destruct frame; split; reflexivity.
  - destruct (confirmPhoto_state env st w) as [E|E]; rewrite E;
      split; reflexivity.
  - unfold bind. destruct (queryFn env st w) as [data w']. cbn [ret fst].
    unfold elapsed_effect.
    destruct (isCheckedIn (sessions (set_sessions st data)));
      split; reflexivity.
  - unfold interval_callback.
    destruct (activeSession (sessions st)); split; reflexivity.
Qed.

Lemma query_settled_ok (env : Env) (st : State) (w : World) (u : uuid) :
  JS.truthy_string (user st) = Some u ->
  faults env (reqs w) = false ->
  step env query_settled st w =
  (elapsed_effect (set_sessions st (select_sessions (db w) u (today st))),
   mkWorld (db w) (ticks w) (S (reqs w)) (minted w) (toasts w) (console w)).
Proof.
  intros Hu Hok. cbn [step]. unfold bind, queryFn. rewrite Hu.
  unfold bind, round_trip, ret. cbn [fst snd db]. rewrite Hok. reflexivity.
Qed.

Lemma elapsed_effect_sessions (st : State) :
  sessions (elapsed_effect st) = sessions st.
Proof.
  unfold elapsed_effect. destruct (isCheckedIn (sessions st)); reflexivity.
Qed.

Lemma open_member_checked_in (l : list AttendanceSession)
    (s : AttendanceSession) :
  In s l -> is_open s = true -> isCheckedIn l = true.
Proof.
  intros Hin Hopen. unfold isCheckedIn, activeSession.
  destruct (find is_open l) eqn:Hfind; [reflexivity|].
  rewrite (find_none _ _ Hfind s Hin) in Hopen. discriminate Hopen.
Qed.

(** *** No photo, no write *)





(** *** Check-in and check-out as seen through the next query *)

Lemma run_two (env : Env) (e1 e2 : Event) (st : State) (w : World) :
  run env [e1; e2] st w =
  step env e2 (fst (step env e1 st w)) (snd (step env e1 st w)).
Proof.
  cbn [run]. unfold bind. destruct (step env e1 st w) as [st1 w1].
  cbn [fst snd]. destruct (step env e2 st1 w1). reflexivity.
Qed.

(** X3. A check-in that goes through, followed by a query that goes
    through: the session list is the ordered list of the user's rows of
    the day with the new open session among them, the component is
    checked in, and the attendance button now offers a check-out. *)
Theorem check_in_then_query (env : Env) (st : State) (w : World)
    (uid image : string) :
  JS.truthy_string (user st) = Some uid ->
  JS.truthy_string (capturedImage st) = Some image ->
  captureType st = check_in ->
  write_fails env st w = false ->
  faults env (S (reqs w)) = false ->
  let new := opened (uuids env (minted w)) uid (today st)
                    (clock env (ticks w)) image in
  let st' := fst (run env [click_confirm; query_settled] st w) in
  let w' := snd (run env [click_confirm; query_settled] st w) in
  db w' = db w ++ [new] /\
  sessions st' = select_sessions (db w ++ [new]) uid (today st) /\
  In new (sessions st') /\
  isCheckedIn (sessions st') = true /\
  captureType (fst (step env click_attendance st' w')) = check_out.
Proof.
  intros Hu Hi Ht Hok Hq new st' w'.
  assert (Hrun : run env [click_confirm; query_settled] st w =
                 (elapsed_effect
                    (set_sessions (after_write st)
                       (select_sessions (db w ++ [new]) uid (today st))),
                  mkWorld (db w ++ [new]) (ticks w + 1) (S (S (reqs w)))
                          (minted w + 1)
                          (toasts w
                           ++ [toast_success "Checked in successfully!"])
                          (console w ++ []))).
  { rewrite run_two. change (step env click_confirm st w)
      with (confirmPhoto env st w).
    rewrite (confirmPhoto_check_in env st w uid image Hu Hi Ht).
    unfold write_fails in Hok. rewrite Ht in Hok.
    apply orb_false_iff in Hok. destruct Hok as [-> ->].
    cbn [fst snd].
    rewrite (query_settled_ok env (after_write st) _ uid); [reflexivity| |].
    - exact Hu.
    - exact Hq. }
  assert (Hss : sessions st'
                = select_sessions (db w ++ [new]) uid (today st)).
  { unfold st'. rewrite Hrun. cbn [fst]. apply elapsed_effect_sessions. }
  assert (Hin : In new (sessions st')).
  { rewrite Hss. apply select_sessions_In.
    split; [apply in_or_app; right; left; reflexivity|]. split; reflexivity. }
  assert (Hchecked : isCheckedIn (sessions st') = true)
    by (apply (open_member_checked_in _ new Hin); reflexivity).
  split; [unfold w'; rewrite Hrun; reflexivity|].
  split; [exact Hss|]. split; [exact Hin|]. split; [exact Hchecked|].
  cbn [step]. rewrite Hchecked. reflexivity.
Qed.

Lemma check_in_then_query_witness :
  sessions (fst (run (steady 1000) [click_confirm; query_settled]
                     (armed [] check_in "in")
                     (with_db empty_world two_closed_sessions)))
  = mkSession "0" "u1" "2026-01-11" 0 None (Some "in") None None
    :: two_closed_sessions.
Proof.
  pose proof (proj1 (proj2 (check_in_then_query (steady 1000)
                              (armed [] check_in "in")
                              (with_db empty_world two_closed_sessions)
                              "u1" "in"
                              eq_refl eq_refl eq_refl eq_refl eq_refl))) as H.
  exact H.
Defined.

Lemma same_id_same_row (rows : list AttendanceSession)
    (r s : AttendanceSession) :
  primary_key rows -> In r rows -> In s rows -> id r = id s -> r = s.
Proof.
  unfold primary_key.
  induction rows as [|x rows IH]; intros Hpk Hr Hs Hid; [destruct Hr|].
  cbn [map] in Hpk. inversion Hpk as [|? ? Hnot Hpk']; subst.
  destruct Hr as [->|Hr], Hs as [->|Hs].
  - reflexivity.
  - exfalso. apply Hnot. rewrite Hid. apply in_map. exact Hs.
  - exfalso. apply Hnot. rewrite <- Hid. apply in_map. exact Hr.
  - apply IH; assumption.
Qed.

(** X4. A check-out of the only open session of the list, followed by a
    query that goes through, on a table that respects its primary key
    and with a session list in sync with it: the component is no longer
    checked in, the elapsed-time cell and the display are back to
    00:00:00, the attendance button offers a check-in again, and the
    session appears in the list closed, with its stored duration. *)
Theorem check_out_then_query (env : Env) (st : State) (w : World)
    (uid image : string) (a : AttendanceSession) :
  JS.truthy_string (user st) = Some uid ->
  JS.truthy_string (capturedImage st) = Some image ->
  captureType st = check_out ->
  primary_key (db w) ->
  sessions st = select_sessions (db w) uid (today st) ->
  filter is_open (sessions st) = [a] ->
  faults env (reqs w) = false ->
  faults env (S (reqs w)) = false ->
  let st' := fst (run env [click_confirm; query_settled] st w) in
  let w' := snd (run env [click_confirm; query_settled] st w) in
  isCheckedIn (sessions st') = false /\
  elapsedTime st' = "00:00:00" /\
  current_session st' = "00:00:00" /\
  captureType (fst (step env click_attendance st' w')) = check_in /\
  In (set_check_out (clock env (S (ticks w))) image
        ((clock env (ticks w) - check_in_time a) / 60000) a)
     (sessions st').
Proof.
  intros Hu Hi Ht Hpk Hsync Hone Hok Hq st' w'.
  set (closed := set_check_out (clock env (S (ticks w))) image
                   ((clock env (ticks w) - check_in_time a) / 60000) a).
  assert (Hfa : In a (filter is_open (sessions st)))
    by (rewrite Hone; left; reflexivity).
  apply filter_In in Hfa. destruct Hfa as [Hina Hopen].
  assert (Ha : activeSession (sessions st) = Some a).
  { unfold activeSession.
    destruct (find_some_of_filter (sessions st)) as [b Hb];
      [rewrite Hone; discriminate|].
    rewrite Hb. f_equal.
    pose proof (find_some _ _ Hb) as [Hinb Hopenb].
    assert (Hfb : In b (filter is_open (sessions st)))
      by (apply filter_In; split; assumption).
    rewrite Hone in Hfb. destruct Hfb as [<-|[]]. reflexivity. }
  pose proof Hina as Hina'. rewrite Hsync in Hina'.
  apply select_sessions_In in Hina'. destruct Hina' as (Hdb & Hown & Hday).
  destruct (in_split a (db w) Hdb) as (before & after & Hsplit).
  assert (Hrun : run env [click_confirm; query_settled] st w =
                 (elapsed_effect
                    (set_sessions (after_write st)
                       (select_sessions (before ++ closed :: after) uid
                          (today st))),
                  mkWorld (before ++ closed :: after) (ticks w + 2)
                          (S (S (reqs w))) (minted w + 0)
                          (toasts w
                           ++ [toast_success "Checked out successfully!"])
                          (console w ++ []))).
  { rewrite run_two. change (step env click_confirm st w)
      with (confirmPhoto env st w).
    rewrite (confirmPhoto_check_out env st w uid image a Hu Hi Ht Ha).
    rewrite Hok. cbn [fst snd].
    rewrite (query_settled_ok env (after_write st) _ uid);
      [|exact Hu|exact Hq].
    cbn [written db ticks reqs minted toasts console].
    rewrite Hsplit at 1 2.
    rewrite closing_only_target;
      [reflexivity|rewrite <- Hsplit; exact Hpk|exact Hown]. }
  assert (Hss : sessions st'
                = select_sessions (before ++ closed :: after) uid (today st)).
  { unfold st'. rewrite Hrun. cbn [fst]. apply elapsed_effect_sessions. }
  assert (Hnone : isCheckedIn (sessions st') = false).
  { unfold isCheckedIn, activeSession.
    destruct (find is_open (sessions st')) as [b|] eqn:Hfind; [|reflexivity].
    exfalso. apply find_some in Hfind. destruct Hfind as [Hinb Hopenb].
    rewrite Hss in Hinb. apply select_sessions_In in Hinb.
    destruct Hinb as (Hinb & Hub & Hdb').
    assert (Hb : In b (before ++ after)).
    { apply in_app_or in Hinb. apply in_or_app.
      destruct Hinb as [Hb|[Hb|Hb]]; [left; exact Hb| |right; exact Hb].
      subst b. discriminate Hopenb. }
    assert (Hbdb : In b (db w)).
    { rewrite Hsplit. apply in_app_or in Hb. apply in_or_app.
      destruct Hb as [Hb|Hb]; [left|right; right]; exact Hb. }
    assert (Hbs : In b (filter is_open (sessions st))).
    { apply filter_In. split; [|exact Hopenb].
      rewrite Hsync. apply select_sessions_In. auto. }
    rewrite Hone in Hbs. destruct Hbs as [<-|[]].
    rewrite Hsplit in Hpk. exact (other_ids before after a Hpk a Hb eq_refl). }
  assert (Hcell : elapsedTime st' = "00:00:00").
  { unfold st'. rewrite Hrun. cbn [fst]. unfold elapsed_effect.
    unfold st' in Hnone. rewrite Hrun in Hnone. cbn [fst] in Hnone.
    rewrite elapsed_effect_sessions in Hnone. rewrite Hnone. reflexivity. }
  split; [exact Hnone|]. split; [exact Hcell|].
  split; [unfold current_session; rewrite Hnone; reflexivity|].
  split; [cbn [step]; rewrite Hnone; reflexivity|].
  rewrite Hss. apply select_sessions_In.
  split; [apply in_or_app; right; left; reflexivity|].
  split; [exact Hown|exact Hday].
Qed.

Lemma check_out_then_query_witness :
  sessions (fst (run (steady 60000) [click_confirm; query_settled]
                     (armed [open_at 0] check_out "out")
                     (with_db (later empty_world 3) [open_at 0])))
  = [ mkSession "s1" "u1" "2026-01-11" 0 (Some 240000)
                (Some "in") (Some "out") (Some 3) ] /\
  isCheckedIn
    (sessions (fst (run (steady 60000) [click_confirm; query_settled]
                        (armed [open_at 0] check_out "out")
                        (with_db (later empty_world 3) [open_at 0]))))
  = false.
Proof.
  split; [reflexivity|].
  apply (check_out_then_query (steady 60000)
           (armed [open_at 0] check_out "out")
           (with_db (later empty_world 3) [open_at 0])
           "u1" "out" (open_at 0)); try reflexivity.
  repeat constructor. intros [].
Defined.

(** *** What a step can do to the table *)

Lemma step_writes (env : Env) (ev : Event) (st : State) (w : World) :
  let w' := snd (step env ev st w) in
  db w' = db w \/
  (exists uid fresh cin photo,
     ev = click_confirm /\
     JS.truthy_string (user st) = Some uid /\
     existsb (has_id fresh) (db w) = false /\
     db w' = db w ++ [opened fresh uid (today st) cin photo]) \/
  (exists uid a out photo minutes,
     ev = click_confirm /\
     JS.truthy_string (user st) = Some uid /\
     activeSession (sessions st) = Some a /\
     db w' = map (closing uid (id a) out photo minutes) (db w)).
Proof.
  intros w'. unfold w'. destruct ev; cbn [step]; try (left; reflexivity).
  - destruct (JS.truthy_string (user st)) as [uid|] eqn:Hu;
      [|left; unfold confirmPhoto; rewrite Hu; reflexivity].
    destruct (JS.truthy_string (capturedImage st)) as [image|] eqn:Hi;
      [|left; unfold confirmPhoto; rewrite Hu, Hi; reflexivity].
    destruct (captureType st) eqn:Ht.
    + rewrite (confirmPhoto_check_in env st w uid image Hu Hi Ht).
      destruct (faults env (reqs w)); [left; reflexivity|].
      destruct (existsb _ _) eqn:Hfresh; [left; reflexivity|].
      right; left. exists uid. do 3 eexists.
      split; [reflexivity|]. split; [reflexivity|].
      split; [exact Hfresh|reflexivity].
    + destruct (activeSession (sessions st)) as [a|] eqn:Ha.
      * rewrite (confirmPhoto_check_out env st w uid image a Hu Hi Ht Ha).
        destruct (faults env (reqs w)); [left; reflexivity|].
        right; right. exists uid, a. do 3 eexists.
        repeat split.
      * rewrite (confirmPhoto_not_checked_in env st w Ht Ha).
        left; reflexivity.
  - left. unfold bind, queryFn.
    destruct (JS.truthy_string (user st)); [|reflexivity].
    unfold bind, round_trip, ret. cbn [fst snd db].
    destruct (faults env (reqs w)); reflexivity.
  - left. unfold interval_callback.
    destruct (activeSession (sessions st)); reflexivity.
Qed.

Lemma step_sessions (env : Env) (ev : Event) (st : State) (w : World) :
  ev <> query_settled ->
  sessions (fst (step env ev st w)) = sessions st.
Proof.
  intros Hev. destruct ev; cbn [step]; try reflexivity.
  - unfold capturePhoto. destruct frame; reflexivity.
  - apply confirmPhoto_sessions.
  - congruence.
  - unfold interval_callback.
    destruct (activeSession (sessions st)); reflexivity.
Qed.

Lemma step_primary_key (env : Env) (ev : Event) (st : State) (w : World) :
  primary_key (db w) -> primary_key (db (snd (step env ev st w))).
Proof.
  intros Hpk.
  destruct (step_writes env ev st w)
    as [E | [(uid & fresh & cin & photo & _ & _ & Hfresh & E)
           | (uid & a & out & photo & minutes & _ & _ & _ & E)]];
    rewrite E.
  - exact Hpk.
  - apply primary_key_insert; assumption.
  - apply primary_key_update; assumption.
Qed.

(** *** Rows are never deleted, re-keyed or reopened *)

Lemma later_version_refl (r : AttendanceSession) : later_version r r.
Proof. unfold later_version. repeat split. intros H; exact H. Qed.

Lemma later_version_trans (r1 r2 r3 : AttendanceSession) :
  later_version r1 r2 -> later_version r2 r3 -> later_version r1 r3.
Proof.
  unfold later_version.
  intros (A1 & A2 & A3 & A4 & A5 & A6) (B1 & B2 & B3 & B4 & B5 & B6).
  repeat split; try congruence. intros H. apply B6, A6, H.
Qed.

Lemma later_version_closing (u target : uuid) (out : instant)
    (photo : string) (minutes : Z) (r : AttendanceSession) :
  later_version r (closing u target out photo minutes r).
Proof.
  unfold closing. destruct (has_id target r && _).
  - unfold later_version. repeat split.
  - apply later_version_refl.
Qed.

Lemma step_keeps_rows (env : Env) (ev : Event) (st : State) (w : World) :
  (List.length (db w) <= List.length (db (snd (step env ev st w))))%nat /\
  forall r, In r (db w) ->
    exists r', In r' (db (snd (step env ev st w))) /\ later_version r r'.
Proof.
  destruct (step_writes env ev st w)
    as [E | [(uid & fresh & cin & photo & _ & _ & _ & E)
           | (uid & a & out & photo & minutes & _ & _ & _ & E)]];
    rewrite E.
  - split; [lia|]. intros r Hr. exists r.
    split; [exact Hr|apply later_version_refl].
  - split; [rewrite length_app; lia|]. intros r Hr. exists r.
    split; [apply in_or_app; left; exact Hr|apply later_version_refl].
  - split; [rewrite length_map; lia|]. intros r Hr.
    exists (closing uid (id a) out photo minutes r).
    split; [apply in_map; exact Hr|apply later_version_closing].
Qed.

(** X5. Whatever the user does, the table never loses a row: every row
    that was there is still there under the same [id], with the same
    owner, day, check-in instant and check-in photo, and a session that
    was closed is never open again. *)
Theorem rows_are_kept (env : Env) (evs : list Event) :
  forall (st : State) (w : World),
    let w' := snd (run env evs st w) in
    (List.length (db w) <= List.length (db w'))%nat /\
    forall r, In r (db w) ->
      exists r', In r' (db w') /\ later_version r r'.
Proof.
  induction evs as [|ev evs IH]; intros st w.
  - cbn. split; [lia|]. intros r Hr. exists r.
    split; [exact Hr|apply later_version_refl].
  - cbn zeta. cbn [run]. unfold bind.
    destruct (step_keeps_rows env ev st w) as [Hlen Hrows].
    destruct (step env ev st w) as [st1 w1]. cbn [snd] in Hlen, Hrows.
    destruct (IH st1 w1) as [IHlen IHrows].
    split; [lia|]. intros r Hr.
    destruct (Hrows r Hr) as (r1 & Hr1 & Hv1).
    destruct (IHrows r1 Hr1) as (r2 & Hr2 & Hv2).
    exists r2. split; [exact Hr2|]. exact (later_version_trans _ _ _ Hv1 Hv2).
Qed.

Lemma rows_are_kept_witness :
  exists r',
    In r' (db (snd (run (steady 60000) (button_flow "out")
                        (watching [open_at 0])
                        (with_db (later empty_world 1) [open_at 0])))) /\
    later_version (open_at 0) r'.
Proof.
  exact (proj2 (rows_are_kept (steady 60000) (button_flow "out")
                  (watching [open_at 0])
                  (with_db (later empty_world 1) [open_at 0]))
               (open_at 0) (or_introl eq_refl)).
Defined.

(** *** Rows the component leaves alone *)

Lemma filter_map_fixed {A : Type} (f : A -> bool) (g : A -> A)
    (l : list A) :
  (forall x, In x l -> f (g x) = f x) ->
  (forall x, In x l -> f x = true -> g x = x) ->
  filter f (map g l) = filter f l.
Proof.
  induction l as [|x l IH]; intros Hf Hg; [reflexivity|].
  cbn [map filter]. rewrite (Hf x (or_introl eq_refl)).
  rewrite IH.
  - destruct (f x) eqn:Hx; [|reflexivity].
    rewrite (Hg x (or_introl eq_refl) Hx). reflexivity.
  - intros y Hy. apply Hf. right. exact Hy.
  - intros y Hy. apply Hg. right. exact Hy.
Qed.

Lemma closing_keeps_owner_and_day (u target : uuid) (out : instant)
    (photo : string) (minutes : Z) (r : AttendanceSession) :
  user_id (closing u target out photo minutes r) = user_id r /\
  date (closing u target out photo minutes r) = date r.
Proof. unfold closing. destruct (has_id target r && _); split; reflexivity. Qed.

Lemma step_leaves_others (env : Env) (ev : Event) (st : State) (w : World)
    (uid : uuid) :
  JS.truthy_string (user st) = Some uid ->
  of_others uid (db (snd (step env ev st w))) = of_others uid (db w).
Proof.
  intros Hu.
  destruct (step_writes env ev st w)
    as [E | [(uid' & fresh & cin & photo & _ & Hu' & _ & E)
           | (uid' & a & out & photo & minutes & _ & Hu' & _ & E)]];
    rewrite E; [reflexivity| |].
  - assert (uid' = uid) by congruence. subst uid'.
    unfold of_others. rewrite filter_app. cbn [filter opened user_id].
    rewrite String.eqb_refl. cbn [negb]. apply app_nil_r.
  - assert (uid' = uid) by congruence. subst uid'.
    unfold of_others. apply filter_map_fixed.
    + intros r _.
      rewrite (proj1 (closing_keeps_owner_and_day uid (id a) out photo
                        minutes r)).
      reflexivity.
    + intros r _ Hr. unfold closing.
      apply negb_true_iff in Hr. rewrite Hr, andb_false_r. reflexivity.
Qed.

(** X6. Whatever the signed-in user does, the rows of every other user
    stay in the table exactly as they were, in the same order. *)
Theorem other_users_untouched (env : Env) (evs : list Event) (uid : uuid) :
  forall (st : State) (w : World),
    JS.truthy_string (user st) = Some uid ->
    of_others uid (db (snd (run env evs st w))) = of_others uid (db w).
Proof.
  induction evs as [|ev evs IH]; intros st w Hu; [reflexivity|].
  cbn [run]. unfold bind.
  pose proof (step_leaves_others env ev st w uid Hu) as Hstep.
  pose proof (proj1 (step_user_today env ev st w)) as Huser.
  destruct (step env ev st w) as [st1 w1]. cbn [fst snd] in Hstep, Huser.
  rewrite IH; [exact Hstep|]. rewrite Huser. exact Hu.
Qed.

Lemma other_users_untouched_witness :
  of_others "u1"
    (db (snd (run (steady 60000)
                (query_settled :: button_flow "out")
                (mount (Some "u1") "2026-01-11")
                (with_db (later empty_world 1)
                   [colleague_open; open_at 0]))))
  = [colleague_open].
Proof.
  exact (other_users_untouched (steady 60000)
           (query_settled :: button_flow "out") "u1"
           (mount (Some "u1") "2026-01-11")
           (with_db (later empty_world 1) [colleague_open; open_at 0])
           eq_refl).
Defined.

Lemma step_signed_out (env : Env) (ev : Event) (st : State) (w : World) :
  JS.truthy_string (user st) = None ->
  db (snd (step env ev st w)) = db w /\
  reqs (snd (step env ev st w)) = reqs w /\
  toasts (snd (step env ev st w)) = toasts w ++ refusals [ev] /\
  (sessions (fst (step env ev st w)) = [] \/
   sessions (fst (step env ev st w)) = sessions st).
Proof.
  intros Hu.
  assert (Hsame : forall l : list Toast, l = l ++ []) by
    (intros l; symmetry; apply app_nil_r).
  destruct ev; cbn [step refusals filter is_refusal map].
  - repeat split; [apply Hsame|right; reflexivity].
  - unfold capturePhoto.
    destruct frame; repeat split; try apply Hsame; right; reflexivity.
  - repeat split; [apply Hsame|right; reflexivity].
  - repeat split; [apply Hsame|right; reflexivity].
  - unfold confirmPhoto. rewrite Hu.
    repeat split; [apply Hsame|right; reflexivity].
  - unfold bind, queryFn. rewrite Hu. unfold ret. cbn [fst snd].
    repeat split; [apply Hsame|]. left. apply elapsed_effect_sessions.
  - unfold interval_callback.
    destruct (activeSession (sessions st)); repeat split;
      try apply Hsame; right; reflexivity.
  - repeat split. right; reflexivity.
Qed.

(** X7. Without a signed-in user ([user?.id] missing or empty) the
    component never contacts the store: whatever happens, the table is
    unchanged, no request is counted, the only toasts shown are the
    "Failed to access camera" messages, one per refused camera, and the
    session list stays empty if it was. *)
Theorem signed_out_is_inert (env : Env) (evs : list Event) :
  forall (st : State) (w : World),
    JS.truthy_string (user st) = None ->
    let st' := fst (run env evs st w) in
    let w' := snd (run env evs st w) in
    db w' = db w /\ reqs w' = reqs w /\
    toasts w' = toasts w ++ refusals evs /\
    (sessions st = [] -> sessions st' = []).
Proof.
  induction evs as [|ev evs IH]; intros st w Hu.
  - repeat split; auto. symmetry. apply app_nil_r.
  - cbn zeta. cbn [run]. unfold bind.
    pose proof (step_signed_out env ev st w Hu) as Hstep.
    pose proof (proj1 (step_user_today env ev st w)) as Huser.
    destruct (step env ev st w) as [st1 w1]. cbn [fst snd] in Hstep, Huser.
    rewrite <- Huser in Hu.
    destruct (IH st1 w1 Hu) as (I1 & I2 & I3 & I4).
    destruct Hstep as (S1 & S2 & S3 & S4).
    split; [congruence|]. split; [congruence|]. split.
    + rewrite I3, S3, <- app_assoc. f_equal. unfold refusals. cbn [filter].
      destruct (is_refusal ev); reflexivity.
    + intros E. apply I4. destruct S4 as [S4|S4]; congruence.
Qed.

Lemma signed_out_is_inert_witness :
  db (snd (run flaky
             (query_settled :: button_flow "in" ++ [camera_refused])
             (mount None "2026-01-11")
             (with_db empty_world two_open)))
  = two_open /\
  toasts (snd (run flaky
                 (query_settled :: button_flow "in" ++ [camera_refused])
                 (mount None "2026-01-11")
                 (with_db empty_world two_open)))
  = [camera_toast].
Proof.
  destruct (signed_out_is_inert flaky
              (query_settled :: button_flow "in" ++ [camera_refused])
              (mount None "2026-01-11") (with_db empty_world two_open)
              eq_refl) as (H1 & _ & H3 & _).
  split; [exact H1|exact H3].
Defined.

(** *** Sessions of other days *)

Lemma step_list_of_today (env : Env) (ev : Event) (st : State) (w : World) :
  list_of_today st w ->
  list_of_today (fst (step env ev st w)) (snd (step env ev st w)) /\
  of_other_days (today st) (db (snd (step env ev st w)))
  = of_other_days (today st) (db w).
Proof.
  intros [Hpk Hlist].
  pose proof (step_primary_key env ev st w Hpk) as Hpk'.
  pose proof (proj2 (step_user_today env ev st w)) as Htoday.
  unfold list_of_today. rewrite Htoday.
  destruct (step_writes env ev st w)
    as [E | [(uid & fresh & cin & photo & Hev & _ & _ & E)
           | (uid & a & out & photo & minutes & Hev & _ & Ha & E)]].
  - (* the table is unchanged *)
    split; [|rewrite E; reflexivity].
    split; [exact Hpk'|]. rewrite E.
    destruct ev;
      try (rewrite step_sessions by discriminate; exact Hlist).
    (* a query result *)
    cbn [step]. unfold bind.
    destruct (queryFn_result env st w) as [Eq | (u & _ & _ & Eq)];
      destruct (queryFn env st w) as [data w1]; cbn [fst] in Eq;
      cbn [ret fst]; rewrite elapsed_effect_sessions;
      cbn [sessions set_sessions]; rewrite Eq.
    + intros s r [].
    + intros s r Hs Hr Hid. apply select_sessions_In in Hs.
      destruct Hs as (Hs & _ & Hd).
      rewrite (same_id_same_row (db w) r s Hpk Hr Hs Hid). exact Hd.
  - (* a row of today is appended *)
    subst ev. rewrite step_sessions by discriminate.
    split.
    + split; [exact Hpk'|]. rewrite E. intros s r Hs Hr Hid.
      apply in_app_or in Hr. destruct Hr as [Hr|[<-|[]]].
      * exact (Hlist s r Hs Hr Hid).
      * reflexivity.
    + rewrite E. unfold of_other_days. rewrite filter_app.
      cbn [filter opened date]. rewrite String.eqb_refl. apply app_nil_r.
  - (* the active session is closed *)
    subst ev. rewrite step_sessions by discriminate.
    split.
    + split; [exact Hpk'|]. rewrite E. intros s r' Hs Hr' Hid.
      apply in_map_iff in Hr'. destruct Hr' as (r & <- & Hr).
      rewrite closing_keeps_id in Hid.
      rewrite (proj2 (closing_keeps_owner_and_day uid (id a) out photo
                        minutes r)).
      exact (Hlist s r Hs Hr Hid).
    + rewrite E. unfold of_other_days. apply filter_map_fixed.
      * intros r _.
        rewrite (proj2 (closing_keeps_owner_and_day uid (id a) out photo
                          minutes r)).
        reflexivity.
      * intros r Hr Hother. unfold closing, has_id.
        destruct (String.eqb_spec (id r) (id a)) as [Hid|_]; [|reflexivity].
        exfalso. apply negb_true_iff in Hother.
        apply find_some in Ha. destruct Ha as [Hina _].
        rewrite (Hlist a r Hina Hr Hid), String.eqb_refl in Hother.
        discriminate Hother.
Qed.

Lemma run_list_of_today (env : Env) (evs : list Event) :
  forall st w,
    list_of_today st w ->
    of_other_days (today st) (db (snd (run env evs st w)))
    = of_other_days (today st) (db w).
Proof.
  induction evs as [|ev evs IH]; intros st w Hinv; [reflexivity|].
  cbn [run]. unfold bind.
  destruct (step_list_of_today env ev st w Hinv) as [Hinv' Hsame].
  pose proof (proj2 (step_user_today env ev st w)) as Htoday.
  destruct (step env ev st w) as [st1 w1]. cbn [fst snd] in *.
  rewrite <- Htoday, (IH st1 w1 Hinv'), Htoday. exact Hsame.
Qed.

(** X8. On a table that respects its primary key, a component mounted for
    day [d] never modifies a session of another day, whatever the user
    does: those rows stay exactly as they were, in the same order.  In
    particular a session left open on an earlier day is never closed by
    the tracker. *)
Theorem other_days_untouched (env : Env) (evs : list Event)
    (u : option uuid) (d : day) (w : World) :
  primary_key (db w) ->
  let w' := snd (run env evs (mount u d) w) in
  of_other_days d (db w') = of_other_days d (db w) /\
  forall r, In r (db w) -> date r <> d -> In r (db w').
Proof.
  intros Hpk w'.
  assert (Hsame : of_other_days d (db w') = of_other_days d (db w)).
  { apply (run_list_of_today env evs (mount u d) w).
    split; [exact Hpk|]. intros s r []. }
  split; [exact Hsame|].
  intros r Hr Hd.
  assert (Hin : In r (of_other_days d (db w))).
  { apply filter_In. split; [exact Hr|].
    apply negb_true_iff, String.eqb_neq. exact Hd. }
  rewrite <- Hsame in Hin. apply filter_In in Hin. exact (proj1 Hin).
Qed.

Lemma other_days_untouched_witness :
  In yesterday_open
     (db (snd (run (steady 60000)
                 (query_settled :: button_flow "in" ++ [query_settled]
                  ++ button_flow "out")
                 (mount (Some "u1") "2026-01-11")
                 (with_db (later empty_world 1) [yesterday_open])))).
Proof.
  apply (other_days_untouched (steady 60000)
           (query_settled :: button_flow "in" ++ [query_settled]
            ++ button_flow "out")
           (Some "u1") "2026-01-11"
           (with_db (later empty_world 1) [yesterday_open])).
  - repeat constructor. intros [].
  - left. reflexivity.
  - discriminate.
Defined.

(** *** The session list holds the user's own sessions, once each *)

Lemma filter_keeps_primary_key (keep : AttendanceSession -> bool)
    (rows : list AttendanceSession) :
  primary_key rows -> primary_key (filter keep rows).
Proof.
  unfold primary_key.
  induction rows as [|r rows IH]; cbn [filter map]; intros Hpk;
    [constructor|].
  apply NoDup_cons_iff in Hpk. destruct Hpk as [Hfresh Hrest].
  destruct (keep r); [|exact (IH Hrest)].
  cbn [map]. apply NoDup_cons_iff. split; [|exact (IH Hrest)].
  intros Hdup. apply Hfresh. apply in_map_iff in Hdup.
  destruct Hdup as (s & Hid & Hs). apply filter_In in Hs.
  rewrite <- Hid. apply in_map. exact (proj1 Hs).
Qed.

Lemma select_sessions_keys (rows : list AttendanceSession)
    (u : uuid) (d : day) :
  primary_key rows -> NoDup (map id (select_sessions rows u d)).
Proof.
  intros Hpk.
  apply (Permutation_NoDup
           (Permutation_sym
              (Permutation_map id (select_sessions_perm rows u d)))).
  apply filter_keeps_primary_key. exact Hpk.
Qed.

Lemma map_indexed_keys (l : list AttendanceSession) :
  forall k, map row_key (map_indexed session_row l k) = map id l.
Proof.
  induction l as [|x l IH]; intros k; [reflexivity|].
  cbn [map_indexed map]. rewrite IH. reflexivity.
Qed.

Lemma map_indexed_length {A B : Type} (f : A -> nat -> B) (l : list A) :
  forall k, List.length (map_indexed f l k) = List.length l.
Proof.
  induction l as [|x l IH]; intros k; [reflexivity|].
  cbn [map_indexed List.length]. rewrite IH. reflexivity.
Qed.

Lemma step_own_list (env : Env) (ev : Event) (st : State) (w : World) :
  primary_key (db w) -> own_list st -> own_list (fst (step env ev st w)).
Proof.
  intros Hpk [Hnd Hown].
  destruct (step_user_today env ev st w) as [Huser Htoday].
  unfold own_list. rewrite Huser, Htoday.
  destruct ev;
    try (rewrite step_sessions by discriminate; split; assumption).
  cbn [step]. unfold bind.
  destruct (queryFn_result env st w) as [Eq | (u & Hu & _ & Eq)];
    destruct (queryFn env st w) as [data w1]; cbn [fst] in Eq;
    cbn [ret fst]; rewrite elapsed_effect_sessions;
    cbn [sessions set_sessions]; rewrite Eq.
  - split; [constructor|intros s []].
  - split; [apply select_sessions_keys; exact Hpk|].
    intros s Hs. apply select_sessions_In in Hs.
    destruct Hs as (_ & Hsu & Hsd). rewrite Hsu, Hsd.
    split; [exact Hu|reflexivity].
Qed.

Lemma run_own_list (env : Env) (evs : list Event) :
  forall st w,
    primary_key (db w) -> own_list st ->
    own_list (fst (run env evs st w)) /\
    user (fst (run env evs st w)) = user st /\
    today (fst (run env evs st w)) = today st.
Proof.
  induction evs as [|ev evs IH]; intros st w Hpk Hown;
    [split; [exact Hown|split; reflexivity]|].
  cbn [run]. unfold bind.
  pose proof (step_primary_key env ev st w Hpk) as Hpk'.
  pose proof (step_own_list env ev st w Hpk Hown) as Hown'.
  destruct (step_user_today env ev st w) as [Huser Htoday].
  destruct (step env ev st w) as [st1 w1]. cbn [fst snd] in *.
  destruct (IH st1 w1 Hpk' Hown') as (I1 & I2 & I3).
  split; [exact I1|]. split; congruence.
Qed.

(** X9. On a table that respects its primary key, in every state the
    component reaches after mounting for user [u] and day [d]: the rows
    drawn in "Today's Sessions" are as many as the sessions of the
    list, their React keys (the session ids) are pairwise distinct, and
    every session of the list belongs to the signed-in user and to day
    [d]; sessions of other users or other days never show up. *)
Theorem session_list_is_own (env : Env) (evs : list Event)
    (u : option uuid) (d : day) (w : World) :
  primary_key (db w) ->
  let l := sessions (fst (run env evs (mount u d) w)) in
  List.length (session_rows l) = List.length l /\
  NoDup (map row_key (session_rows l)) /\
  forall s, In s l ->
            JS.truthy_string u = Some (user_id s) /\ date s = d.
Proof.
  intros Hpk l.
  destruct (run_own_list env evs (mount u d) w Hpk) as ([Hnd Hown] & Hu & Hd).
  { split; [constructor|intros s []]. }
  split; [apply map_indexed_length|].
  split.
  - unfold session_rows. rewrite map_indexed_keys. exact Hnd.
  - intros s Hs. destruct (Hown s Hs) as [H1 H2].
    rewrite Hu in H1. rewrite Hd in H2. split; assumption.
Qed.

Lemma session_list_is_own_witness :
  map id
    (sessions (fst (run (steady 1000) [query_settled]
                        (mount (Some "u1") "2026-01-11")
                        (with_db empty_world
                           [yesterday_open; colleague_open; open_at 0]))))
  = ["s1"] /\
  NoDup
    (map row_key
       (session_rows
          (sessions (fst (run (steady 1000) [query_settled]
                              (mount (Some "u1") "2026-01-11")
                              (with_db empty_world
                                 [yesterday_open; colleague_open;
                                  open_at 0])))))).
Proof.
  split; [reflexivity|].
  apply (session_list_is_own (steady 1000) [query_settled]
           (Some "u1") "2026-01-11"
           (with_db empty_world [yesterday_open; colleague_open; open_at 0])).
  repeat constructor; cbn; intuition discriminate.
Defined.

(** *** The elapsed-time string and the elapsed-time cell *)

Lemma fields_of_seconds (diff : Z) :
  0 <= diff ->
  diff / 3600000 = diff / 1000 / 3600 /\
  Z.rem diff 3600000 / 60000 = (diff / 1000) mod 3600 / 60 /\
  Z.rem diff 60000 / 1000 = (diff / 1000) mod 60.
Proof.
  intros Hd. rewrite !Z.rem_mod_nonneg by lia.
  Z.div_mod_to_equations. lia.
Qed.

(** X10. While the clock is not before the check-in instant, the string
    shown for an open session depends only on the number of whole
    seconds elapsed: two instants within the same second give the same
    display, so the display can only change from one second to the
    next. *)
Theorem elapsed_whole_seconds (T now now' : instant) :
  0 <= now - T -> 0 <= now' - T ->
  (now - T) / 1000 = (now' - T) / 1000 ->
  elapsed T now = elapsed T now'.
Proof.
  intros Hd Hd' Hsec. rewrite !elapsed_clock_face.
  destruct (fields_of_seconds (now - T) Hd) as (-> & -> & ->).
  destruct (fields_of_seconds (now' - T) Hd') as (-> & -> & ->).
  rewrite Hsec. reflexivity.
Qed.

Lemma elapsed_whole_seconds_witness :
  elapsed 500 61500 = elapsed 500 62499.
Proof.
  apply elapsed_whole_seconds; [lia|lia|reflexivity].
Defined.

Lemma step_idle_cell (env : Env) (ev : Event) (st : State) (w : World) :
  (isCheckedIn (sessions st) = false -> elapsedTime st = "00:00:00") ->
  isCheckedIn (sessions (fst (step env ev st w))) = false ->
  elapsedTime (fst (step env ev st w)) = "00:00:00".
Proof.
  intros Hidle. destruct ev; cbn [step]; try exact Hidle.
  - unfold capturePhoto. destruct frame; exact Hidle.
  - destruct (confirmPhoto_state env st w) as [E|E]; rewrite E; exact Hidle.
  - unfold bind. destruct (queryFn env st w) as [data w1]. cbn [ret fst].
    rewrite elapsed_effect_sessions. cbn [sessions set_sessions].
    intros Hdata. unfold elapsed_effect. cbn [sessions set_sessions].
    rewrite Hdata. reflexivity.
  - unfold interval_callback, isCheckedIn in *.
    destruct (activeSession (sessions st)) as [a|] eqn:Ha;
      cbn [ret Date_now bind fst setElapsedTime sessions].
    + unfold bind, Date_now, ret. cbn [fst sessions setElapsedTime].
      rewrite Ha. discriminate.
    + rewrite Ha. exact Hidle.
Qed.

(** X11. In every state the component reaches after mounting, whenever the
    session list holds no open session the elapsed-time cell itself
    reads 00:00:00: a value left by the timer of an earlier session
    never survives the check-out. *)
Theorem idle_cell_is_zero (env : Env) (evs : list Event)
    (u : option uuid) (d : day) (w : World) :
  let st' := fst (run env evs (mount u d) w) in
  isCheckedIn (sessions st') = false ->
  elapsedTime st' = "00:00:00".
Proof.
  assert (Hrun : forall evs st w,
             (isCheckedIn (sessions st) = false ->
              elapsedTime st = "00:00:00") ->
             isCheckedIn (sessions (fst (run env evs st w))) = false ->
             elapsedTime (fst (run env evs st w)) = "00:00:00").
  { clear. intros evs. induction evs as [|ev evs IH]; intros st w Hidle;
      [exact Hidle|].
    cbn [run]. unfold bind.
    pose proof (step_idle_cell env ev st w Hidle) as Hstep.
    destruct (step env ev st w) as [st1 w1]. apply IH. exact Hstep. }
  cbn zeta. apply Hrun. intros _. reflexivity.
Qed.

Lemma idle_cell_is_zero_witness :
  elapsedTime
    (fst (run (steady 61000)
            (query_settled :: interval_fired :: button_flow "out"
             ++ [query_settled])
            (mount (Some "u1") "2026-01-11")
            (with_db (later empty_world 1) [open_at 0])))
  = "00:00:00".
Proof.
  exact (idle_cell_is_zero (steady 61000)
           (query_settled :: interval_fired :: button_flow "out"
            ++ [query_settled])
           (Some "u1") "2026-01-11"
           (with_db (later empty_world 1) [open_at 0]) eq_refl).
Defined.

(** *** The daily total over time and below zero *)

Lemma live_minutes_monotone (clk : nat -> instant)
    (l : list AttendanceSession) :
  never_goes_back clk ->
  forall t t', (t <= t')%nat -> live_minutes clk t l <= live_minutes clk t' l.
Proof.
  intros Hclk. induction l as [|s l IH]; intros t t' Htt'; [reflexivity|].
  cbn [live_minutes]. destruct (is_open s).
  - pose proof (Hclk t t' Htt') as Hnow.
    assert (Hhead : (clk t - check_in_time s) / 60000
                    <= (clk t' - check_in_time s) / 60000)
      by (apply Z.div_le_mono; lia).
    assert (Htail : live_minutes clk (S t) l <= live_minutes clk (S t') l)
      by (apply IH; lia).
    lia.
  - apply IH. exact Htt'.
Qed.

(** X12. With a clock that never goes back, "Today's Total" never decreases
    from one render to a later one, as long as the session list obeys
    the data model (no stored duration on an open session). *)
Theorem total_never_decreases (env : Env) (l : list AttendanceSession)
    (w w' : World) :
  never_goes_back (clock env) ->
  no_duration_while_open l ->
  (ticks w <= ticks w')%nat ->
  fst (totalMinutes env l w) <= fst (totalMinutes env l w').
Proof.
  intros Hclk Hwf Hticks. unfold totalMinutes.
  rewrite !(reduce_add_minutes env l Hwf). cbn [fst].
  pose proof (live_minutes_monotone (clock env) l Hclk _ _ Hticks). lia.
Qed.

Lemma total_never_decreases_witness :
  fst (totalMinutes (steady 60000) (two_closed_sessions ++ [open_at 0])
         (later empty_world 1))
  <= fst (totalMinutes (steady 60000) (two_closed_sessions ++ [open_at 0])
            (later empty_world 7)).
Proof.
  apply total_never_decreases.
  - intros i j Hij.
    change (60000 * Z.of_nat i <= 60000 * Z.of_nat j). lia.
  - intros s [<-|[<-|[<-|[]]]] Hopen; try discriminate Hopen; reflexivity.
  - cbn. lia.
Defined.

(** X13. "Today's Total" pairs [Math.floor (total / 60)] with [total % 60].
    For a negative total that is not a whole number of hours (stored
    durations can be negative when the clock was set back) the two do
    not recompose the total: read as hours and minutes, the pair shown
    stands for one hour less than the total. *)
Theorem negative_total_reads_an_hour_less (total : Z) :
  total < 0 ->
  remainingMinutes total <> 0 ->
  60 * totalHours total + remainingMinutes total = total - 60 /\
  -60 < remainingMinutes total < 0.
Proof.
  unfold totalHours, remainingMinutes, JS.floor_div, JS.rem.
  intros Hneg Hrem.
  Z.quot_rem_to_equations. Z.div_mod_to_equations. lia.
Qed.

Lemma negative_total_reads_an_hour_less_witness :
  60 * totalHours (-1) + remainingMinutes (-1) = -1 - 60.
Proof.
  apply negative_total_reads_an_hour_less; [lia|discriminate].
Defined.

(** *** The analytics chart against the tracker *)

Lemma dayMinutes_sum (l : list AttendanceSession) :
  dayMinutes l = total_of (map minutes_or_zero l).
Proof.
  unfold dayMinutes.
  assert (H : forall acc,
             fold_left (fun acc a => acc + minutes_or_zero a) l acc
             = acc + total_of (map minutes_or_zero l)).
  { induction l as [|a l IH]; intros acc; cbn [fold_left map total_of fold_right].
    - lia.
    - rewrite IH. unfold total_of. lia. }
  rewrite H. lia.
Qed.

Lemma total_of_perm (l l' : list Z) :
  Permutation l l' -> total_of l = total_of l'.
Proof.
  unfold total_of.
  induction 1; cbn [fold_right]; lia.
Qed.

Lemma dayMinutes_perm (l l' : list AttendanceSession) :
  Permutation l l' -> dayMinutes l = dayMinutes l'.
Proof.
  intros Hp. rewrite !dayMinutes_sum.
  apply total_of_perm, Permutation_map, Hp.
Qed.

Lemma dayMinutes_closed (l : list AttendanceSession) :
  no_duration_while_open l -> dayMinutes l = closed_minutes l.
Proof.
  rewrite dayMinutes_sum. unfold closed_minutes, total_of.
  induction l as [|s l IH]; intros Hwf; [reflexivity|].
  assert (Hl : no_duration_while_open l)
    by (intros x Hx; apply Hwf; right; exact Hx).
  cbn [map filter fold_right]. rewrite (IH Hl).
  unfold minutes_or_zero.
  destruct (is_open s) eqn:Hopen; cbn [negb map fold_right].
  - rewrite (Hwf s (or_introl eq_refl) Hopen). cbn. lia.
  - unfold stored_minutes. destruct (duration_minutes s) as [m|]; cbn.
    + destruct (Z.eqb_spec m 0); lia.
    + lia.
Qed.

Lemma select_sessions_of_user (rows : list AttendanceSession)
    (u : uuid) (d : day) :
  Permutation (select_sessions rows u d) (of_user u (dayData rows d)).
Proof.
  rewrite select_sessions_perm. unfold of_user, dayData.
  induction rows as [|r rows IH]; [reflexivity|].
  cbn [filter].
  destruct (String.eqb (user_id r) u) eqn:Hu,
           (String.eqb (date r) d) eqn:Hd;
    cbn [andb filter]; rewrite ?Hu; try exact IH.
  constructor. exact IH.
Qed.

Lemma dayMinutes_split (u : uuid) (l : list AttendanceSession) :
  dayMinutes l = dayMinutes (of_user u l) + dayMinutes (of_others u l).
Proof.
  rewrite !dayMinutes_sum. unfold of_user, of_others, total_of.
  induction l as [|a l IH]; [reflexivity|].
  cbn [filter map fold_right].
  destruct (String.eqb (user_id a) u); cbn [negb map fold_right]; lia.
Qed.

(** X14. The chart and the tracker agree on closed time.  For a user's
    session list of a day that obeys the data model, the total shown
    by the tracker is the sum the analytics chart computes over that
    user's rows of the day, plus the live minutes of the sessions still
    open, which the chart does not count; and the chart's sum for the
    day is that user's part plus the part of all other users. *)
Theorem chart_counts_closed_time (env : Env) (rows : list AttendanceSession)
    (u : uuid) (d : day) (w : World) :
  no_duration_while_open (select_sessions rows u d) ->
  fst (totalMinutes env (select_sessions rows u d) w)
  = dayMinutes (of_user u (dayData rows d))
    + live_minutes (clock env) (ticks w) (select_sessions rows u d) /\
  dayMinutes (dayData rows d)
  = dayMinutes (of_user u (dayData rows d))
    + dayMinutes (of_others u (dayData rows d)).
Proof.
  intros Hwf. split; [|apply dayMinutes_split].
  unfold totalMinutes. rewrite (reduce_add_minutes env _ Hwf). cbn [fst].
  rewrite <- (dayMinutes_perm _ _ (select_sessions_of_user rows u d)).
  rewrite (dayMinutes_closed _ Hwf). lia.
Qed.

Lemma chart_counts_closed_time_witness :
  fst (totalMinutes (steady 1000)
         (select_sessions (colleague_open :: two_closed_sessions)
            "u1" "2026-01-11")
         empty_world)
  = dayMinutes
      (of_user "u1"
         (dayData (colleague_open :: two_closed_sessions) "2026-01-11"))
    + 0.
Proof.
  refine (proj1 (chart_counts_closed_time (steady 1000)
                   (colleague_open :: two_closed_sessions)
                   "u1" "2026-01-11" empty_world _)).
  intros s [<-|[<-|[]]] Hopen; discriminate Hopen.
Defined.

Lemma nodup_single (u : string) (l : list string) :
  l <> [] -> (forall x, In x l -> x = u) ->
  nodup string_dec l = [u].
Proof.
  induction l as [|x l IH]; intros Hne Hall; [congruence|].
  assert (x = u) by (apply Hall; left; reflexivity). subst x.
  cbn [nodup]. destruct (in_dec string_dec u l) as [Hin|Hnot].
  - apply IH; [intros E; rewrite E in Hin; destruct Hin|].
    intros y Hy. apply Hall. right. exact Hy.
  - destruct l as [|y l]; [reflexivity|].
    exfalso. apply Hnot. left. apply Hall. right. left. reflexivity.
Qed.

(** X15. The "members" figure of a day counts users, not sessions: it is 0
    exactly when the day has no row, never exceeds the number of rows,
    and is 1 when all rows of the day belong to one user, however many
    sessions that user logged. *)
Theorem members_counts_users (l : list AttendanceSession) :
  (uniqueUsers l <= List.length l)%nat /\
  (uniqueUsers l = 0%nat <-> l = []) /\
  (forall u, l <> [] -> (forall a, In a l -> user_id a = u) ->
             uniqueUsers l = 1%nat).
Proof.
  unfold uniqueUsers. split; [|split].
  - rewrite <- (length_map user_id l).
    apply NoDup_incl_length; [apply NoDup_nodup|].
    intros x Hx. apply nodup_In in Hx. exact Hx.
  - split.
    + intros H0. destruct l as [|a l]; [reflexivity|]. exfalso.
      assert (Hin : In (user_id a) (nodup string_dec (map user_id (a :: l))))
        by (apply nodup_In; left; reflexivity).
      destruct (nodup string_dec (map user_id (a :: l))); [destruct Hin|].
      discriminate H0.
    + intros ->. reflexivity.
  - intros u Hne Hall.
    rewrite (nodup_single u (map user_id l)); [reflexivity| |].
    + destruct l; [congruence|discriminate].
    + intros x Hx. apply in_map_iff in Hx.
      destruct Hx as (a & <- & Ha). apply Hall, Ha.
Qed.

Lemma members_counts_users_witness :
  uniqueUsers (dayData (yesterday_open :: two_closed_sessions) "2026-01-11")
  = 1%nat.
Proof.
  apply (proj2 (proj2 (members_counts_users
                         (dayData (yesterday_open :: two_closed_sessions)
                            "2026-01-11"))) "u1").
  - discriminate.
  - intros a [<-|[<-|[]]]; reflexivity.
Defined.

(** *** A query that fails *)

(** X16. When the sessions query fails, its result is the empty list: the
    component shows no session, the display reads 00:00:00 and the
    attendance button offers a check-in, whatever the table holds, even
    an open session of the user for the day. *)
Theorem failed_query_shows_nothing (env : Env) (st : State) (w : World) :
  faults env (reqs w) = true ->
  let st' := fst (step env query_settled st w) in
  let w' := snd (step env query_settled st w) in
  sessions st' = [] /\
  session_rows (sessions st') = [] /\
  current_session st' = "00:00:00" /\
  captureType (fst (step env click_attendance st' w')) = check_in /\
  db w' = db w.
Proof.
  intros Hfail st' w'.
  assert (Hq : fst (queryFn env st w) = [] /\ db (snd (queryFn env st w)) = db w).
  { unfold queryFn. destruct (JS.truthy_string (user st)); [|split; reflexivity].
    unfold bind, round_trip, ret. cbn [fst snd db]. rewrite Hfail.
    split; reflexivity. }
  destruct Hq as [Hdata Hdb].
  assert (Hss : sessions st' = []).
  { unfold st'. cbn [step]. unfold bind.
    destruct (queryFn env st w) as [data w1]. cbn [fst] in Hdata.
    cbn [ret fst]. rewrite elapsed_effect_sessions. exact Hdata. }
  split; [exact Hss|]. split; [rewrite Hss; reflexivity|].
  split; [unfold current_session; rewrite Hss; reflexivity|].
  split; [cbn [step]; rewrite Hss; reflexivity|].
  unfold w'. cbn [step]. unfold bind.
  destruct (queryFn env st w) as [data w1]. cbn [snd] in Hdb.
  cbn [ret snd]. exact Hdb.
Qed.

Lemma failed_query_shows_nothing_witness :
  sessions (fst (step flaky query_settled (watching [open_at 0])
                      (with_db empty_world [open_at 0])))
  = [].
Proof.
  exact (proj1 (failed_query_shows_nothing flaky (watching [open_at 0])
                  (with_db empty_world [open_at 0]) eq_refl)).
Defined.

(** *** Checking out twice before the query settles *)

Lemma run_app (env : Env) (evs1 evs2 : list Event) :
  forall st w,
    run env (evs1 ++ evs2) st w =
    run env evs2 (fst (run env evs1 st w)) (snd (run env evs1 st w)).
Proof.
  induction evs1 as [|ev evs1 IH]; intros st w; [reflexivity|].
  cbn [app run]. unfold bind. destruct (step env ev st w) as [st1 w1].
  apply IH.
Qed.

Lemma button_flow_check_out (env : Env) (st : State) (w : World)
    (uid photo : string) (a : AttendanceSession) :
  JS.truthy_string (user st) = Some uid ->
  activeSession (sessions st) = Some a ->
  JS.truthy_string (Some photo) = Some photo ->
  faults env (reqs w) = false ->
  run env (button_flow photo) st w =
  (after_write (setCapturedImage (openCamera st check_out) (Some photo)),
   written w 2 0
     (map (closing uid (id a) (clock env (S (ticks w))) photo
             ((clock env (ticks w) - check_in_time a) / 60000))
          (db w))
     (toast_success "Checked out successfully!") []).
Proof.
  intros Hu Ha Hp Hok. unfold button_flow. cbn [run step].
  unfold isCheckedIn. rewrite Ha.
  unfold bind at 1. cbn [ret]. unfold bind at 1. cbn [ret capturePhoto].
  unfold bind.
  rewrite (confirmPhoto_check_out env _ w uid photo a);
    [rewrite Hok; reflexivity|exact Hu|exact Hp|reflexivity|exact Ha].
Qed.

Lemma closing_twice (u target : uuid) (out1 out2 : instant)
    (p1 p2 : string) (m1 m2 : Z) (r : AttendanceSession) :
  closing u target out2 p2 m2 (closing u target out1 p1 m1 r)
  = closing u target out2 p2 m2 r.
Proof.
  unfold closing, has_id.
  destruct (String.eqb (id r) target && String.eqb (user_id r) u) eqn:Hmatch.
  - cbn [id user_id set_check_out]. rewrite Hmatch. reflexivity.
  - rewrite Hmatch. reflexivity.
Qed.

(** X17. A second check-out confirmed before the sessions query has
    delivered the first one is accepted: the component still holds the
    old list, offers a check-out again and rewrites the same row.  The
    table ends up as if only the second check-out had happened, with
    its photo, its [check_out_time] and a duration measured at the
    second confirmation; the values stored by the first are lost. *)
Theorem second_check_out_overwrites (env : Env) (st : State) (w : World)
    (uid p1 p2 : string) (a : AttendanceSession) :
  JS.truthy_string (user st) = Some uid ->
  activeSession (sessions st) = Some a ->
  JS.truthy_string (Some p1) = Some p1 ->
  JS.truthy_string (Some p2) = Some p2 ->
  faults env (reqs w) = false ->
  faults env (S (reqs w)) = false ->
  let w' := snd (run env (button_flow p1 ++ button_flow p2) st w) in
  db w' = map (closing uid (id a) (clock env (ticks w + 3)) p2
                 ((clock env (ticks w + 2) - check_in_time a) / 60000))
              (db w) /\
  toasts w' = toasts w ++ [ toast_success "Checked out successfully!";
                            toast_success "Checked out successfully!" ].
Proof.
  intros Hu Ha Hp1 Hp2 Hok1 Hok2 w'. unfold w'.
  rewrite run_app.
  rewrite (button_flow_check_out env st w uid p1 a Hu Ha Hp1 Hok1).
  cbn [fst snd].
  rewrite (button_flow_check_out env _ _ uid p2 a); try assumption;
    try reflexivity.
  cbn [snd written db ticks toasts].
  split.
  - rewrite map_map.
    replace (S (ticks w + 2)) with (ticks w + 3)%nat by lia.
    apply map_ext. intros r. apply closing_twice.
  - rewrite <- app_assoc. reflexivity.
Qed.

Lemma second_check_out_overwrites_witness :
  db (snd (run (steady 60000) (button_flow "out1" ++ button_flow "out2")
             (watching [open_at 0])
             (with_db (later empty_world 1) [open_at 0])))
  = [ mkSession "s1" "u1" "2026-01-11" 0 (Some 240000)
                (Some "in") (Some "out2") (Some 3) ].
Proof.
  exact (proj1 (second_check_out_overwrites (steady 60000)
                  (watching [open_at 0])
                  (with_db (later empty_world 1) [open_at 0])
                  "u1" "out1" "out2" (open_at 0)
                  eq_refl eq_refl eq_refl eq_refl eq_refl eq_refl)).
Defined.
